(** * Duplicate filters of mob_scrapy_redis_sentinel (dupefilter.py)

    A shallow embedding of the three request-duplicate filters
    ([MongoDupeFilter], [RedisDupeFilter], [RedisBloomFilter]) together with
    the part of their collaborators that the filters touch: the Redis
    server (sets and bit strings), the MongoDB server (collections with an
    optional unique index on "fp"), the crawler's stats collector and the
    logger.  Every method is a computation in a state-and-exception monad;
    the state of a method is the pair of the instance it runs on and the
    world outside the process. *)

From Stdlib Require Import ZArith NArith Lia.
From stdpp Require Import base option list gmap strings pretty.

Local Open Scope string_scope.
Local Open Scope list_scope.

(** ** Python values, exceptions *)

(** The values a settings object can hold for the options read here. *)
Inductive pyval : Type :=
| PyNone
| PyBool (b : bool)
| PyInt (z : Z)
| PyStr (s : string).

Inductive exn : Type :=
| DuplicateKeyError            (* pymongo.errors.DuplicateKeyError *)
| ServerSelectionTimeoutError  (* pymongo: no server behind the client *)
| ConnectionError              (* redis: no server behind the handle *)
| ResponseError                (* redis: WRONGTYPE *)
| TypeError
| ValueError
| AttributeError.

Inductive result (A : Type) : Type :=
| Ok (a : A)
| Raise (e : exn).
Arguments Ok {A} a.
Arguments Raise {A} e.

Definition result_map {A B} (f : A -> B) (r : result A) : result B :=
  match r with Ok a => Ok (f a) | Raise e => Raise e end.

(** ** The monad: state passing with exceptions.  A raised exception keeps
    the state reached so far, as in Python. *)

Definition M (S A : Type) : Type := S -> result A * S.

Definition ret {S A} (a : A) : M S A := fun s => (Ok a, s).
Definition raise {S A} (e : exn) : M S A := fun s => (Raise e, s).
Definition bind {S A B} (m : M S A) (k : A -> M S B) : M S B :=
  fun s => match m s with
           | (Ok a, s') => k a s'
           | (Raise e, s') => (Raise e, s')
           end.
(** [try: m except: h] *)
Definition try_except {S A} (m : M S A) (h : exn -> M S A) : M S A :=
  fun s => match m s with
           | (Ok a, s') => (Ok a, s')
           | (Raise e, s') => h e s'
           end.

Notation "'do' x <- c1 ; c2" := (bind c1 (fun x => c2))
  (at level 10, x name, c1 at level 100, c2 at level 200).

(** ** The world outside the process *)

(** A Redis key holds a set of members or a string addressed bit by bit. *)
Inductive rvalue : Type :=
| RSet (members : gset string)
| RStr (bits : N).

(** A MongoDB collection.  Every document this module stores has the shape
    [{"fp": fp}], so a document is represented by its "fp" value;
    [unique_fp] tells whether the collection carries the unique index on
    "fp". *)
Record mongo_collection : Type := Collection {
  docs : list string;
  unique_fp : bool
}.

(** What the process does to its collaborators, oldest first. *)
Inductive event : Type :=
| EvSadd (server key member : string)
| EvDelete (server key : string)
| EvGetbit (server key : string) (offset : N)
| EvSetbit (server key : string) (offset : N)
| EvCreateIndex (client db coll : string)
| EvFindOne (client db coll fp : string)
| EvInsertOne (client db coll fp : string)
| EvBfExists (key fp : string)
| EvBfInsert (key fp : string)
| EvLoggerDebug (logger msg spider : string)
| EvIncValue (name spider : string).

Record world : Type := World {
  redis_servers : gmap string (gmap string rvalue);
  mongo_servers : gmap string (gmap string (gmap string mongo_collection));
  clock : Z;                         (* int(time.time()) *)
  stats : gmap string Z;             (* spider.crawler.stats *)
  trace : list event
}.

Definition set_redis (r : gmap string (gmap string rvalue)) (w : world) : world :=
  World r (mongo_servers w) (clock w) (stats w) (trace w).
Definition set_mongo (m : gmap string (gmap string (gmap string mongo_collection)))
    (w : world) : world :=
  World (redis_servers w) m (clock w) (stats w) (trace w).
Definition set_stats (s : gmap string Z) (w : world) : world :=
  World (redis_servers w) (mongo_servers w) (clock w) s (trace w).
Definition set_trace (t : list event) (w : world) : world :=
  World (redis_servers w) (mongo_servers w) (clock w) (stats w) t.

Definition emit (e : event) : M world unit :=
  fun w => (Ok tt, set_trace (trace w ++ [e]) w).

(** The events a computation added when it took [w] to [w']. *)
Definition new_events (w w' : world) : list event :=
  drop (length (trace w)) (trace w').

(** A method runs on an instance [I] and the world; [lift] runs a
    computation on the world from inside a method. *)
Definition lift {I A} (m : M world A) : M (I * world) A :=
  fun s => let (r, w') := m (snd s) in (r, (fst s, w')).
Definition get_self {I} : M (I * world) I := fun s => (Ok (fst s), s).
Definition set_self {I} (i : I) : M (I * world) unit :=
  fun s => (Ok tt, (i, snd s)).

(** ** redis-py client, as far as the filters use it *)
Module Redis.

Definition with_server {A} (server : string)
    (k : gmap string rvalue -> M world A) : M world A :=
  fun w => match redis_servers w !! server with
           | Some db => k db w
           | None => (Raise ConnectionError, w)
           end.

Definition store (server : string) (db : gmap string rvalue) : M world unit :=
  fun w => (Ok tt, set_redis (<[server := db]> (redis_servers w)) w).

(** SADD key member: the number of members added. *)
Definition sadd (server key member : string) : M world Z :=
  do _ <- emit (EvSadd server key member);
  with_server server (fun db =>
    match db !! key with
    | None =>
        do _ <- store server (<[key := RSet {[member]}]> db); ret 1%Z
    | Some (RSet s) =>
        if decide (member ∈ s) then ret 0%Z
        else do _ <- store server (<[key := RSet ({[member]} ∪ s)]> db);
             ret 1%Z
    | Some (RStr _) => raise ResponseError
    end).

(** DEL key: the number of keys removed. *)
Definition delete (server key : string) : M world Z :=
  do _ <- emit (EvDelete server key);
  with_server server (fun db =>
    match db !! key with
    | None => ret 0%Z
    | Some _ => do _ <- store server (base.delete key db); ret 1%Z
    end).

(** GETBIT key offset *)
Definition getbit (server key : string) (offset : N) : M world Z :=
  do _ <- emit (EvGetbit server key offset);
  with_server server (fun db =>
    match db !! key with
    | None => ret 0%Z
    | Some (RStr n) => ret (Z.b2z (N.testbit n offset))
    | Some (RSet _) => raise ResponseError
    end).

(** SETBIT key offset 1: the bit that was there. *)
Definition setbit (server key : string) (offset : N) : M world Z :=
  do _ <- emit (EvSetbit server key offset);
  with_server server (fun db =>
    match db !! key with
    | None =>
        do _ <- store server (<[key := RStr (N.setbit 0 offset)]> db);
        ret 0%Z
    | Some (RStr n) =>
        do _ <- store server (<[key := RStr (N.setbit n offset)]> db);
        ret (Z.b2z (N.testbit n offset))
    | Some (RSet _) => raise ResponseError
    end).

End Redis.

(** ** pymongo client, as far as the filter uses it *)
Module Mongo.

(** [MongoClient.HOST]: the endpoint of a client built without a host. *)
Definition HOST : string := "localhost".

(** [pymongo.MongoClient(host)].  No round trip happens here; the client
    connects on its first operation.  The endpoint string is kept as the
    name of the server (its URI syntax is not modelled). *)
Definition MongoClient (host : pyval) : M world string :=
  match host with
  | PyNone => ret HOST
  | PyStr uri => ret uri
  | _ => raise TypeError
  end.

(** A [Database] object: its client and its name. *)
Record database : Type := Database { db_client : string; db_name : string }.

(** [client[name]]: [Database.__init__] refuses a name that is no [str]. *)
Definition getitem (client : string) (name : pyval) : M world database :=
  match name with
  | PyStr n => ret (Database client n)
  | _ => raise TypeError
  end.

(** [client.name] for a name that is no attribute of [MongoClient]
    ("drop_collection" is a method of [Database], not of [MongoClient]):
    [MongoClient.__getattr__] answers with the database of that name. *)
Definition getattr (client : string) (name : string) : M world database :=
  getitem client (PyStr name).

(** [Database.__call__]: a database object is not callable, whatever the
    arguments. *)
Definition call {A} (db : database) (args : list pyval) : M world A :=
  raise TypeError.

Definition with_server {A} (client : string)
    (k : gmap string (gmap string mongo_collection) -> M world A) : M world A :=
  fun w => match mongo_servers w !! client with
           | Some dbs => k dbs w
           | None => (Raise ServerSelectionTimeoutError, w)
           end.

Definition lookup_coll (dbs : gmap string (gmap string mongo_collection))
    (db coll : string) : option mongo_collection :=
  dbs !! db ≫= fun cs => cs !! coll.

Definition store_coll (db : database) (coll : string) (c : mongo_collection)
    : M world unit :=
  fun w =>
    let dbs := default ∅ (mongo_servers w !! db_client db) in
    let cs := default ∅ (dbs !! db_name db) in
    (Ok tt, set_mongo (<[db_client db := <[db_name db := <[coll := c]> cs]> dbs]>
                          (mongo_servers w)) w).

(** [db[coll].create_index("fp", unique=True)]: creates the collection
    when it is missing; building a unique index over documents that
    already share an "fp" fails. *)
Definition create_index_fp_unique (db : database) (coll : string) : M world unit :=
  do _ <- emit (EvCreateIndex (db_client db) (db_name db) coll);
  with_server (db_client db) (fun dbs =>
    let c := default (Collection [] false) (lookup_coll dbs (db_name db) coll) in
    if decide (NoDup (docs c))
    then store_coll db coll (Collection (docs c) true)
    else raise DuplicateKeyError).

(** [db[coll].find_one({"fp": fp})]: a document, or [None]. *)
Definition find_one (db : database) (coll fp : string) : M world (option string) :=
  do _ <- emit (EvFindOne (db_client db) (db_name db) coll fp);
  with_server (db_client db) (fun dbs =>
    match lookup_coll dbs (db_name db) coll with
    | Some c => if decide (fp ∈ docs c) then ret (Some fp) else ret None
    | None => ret None
    end).

(** [db[coll].insert_one({"fp": fp})]: creates the collection (without
    any index on "fp") when it is missing. *)
Definition insert_one (db : database) (coll fp : string) : M world unit :=
  do _ <- emit (EvInsertOne (db_client db) (db_name db) coll fp);
  with_server (db_client db) (fun dbs =>
    let c := default (Collection [] false) (lookup_coll dbs (db_name db) coll) in
    if unique_fp c && bool_decide (fp ∈ docs c)
    then raise DuplicateKeyError
    else store_coll db coll (Collection (docs c ++ [fp]) (unique_fp c))).

(** [Database.drop_collection(name)]: the collection goes, its indexes
    with it.  No method of the filters reaches it (see
    [MongoDupeFilter.clear]); it states what a drop is. *)
Definition drop_collection (db : database) (coll : string) : M world unit :=
  with_server (db_client db) (fun dbs => fun w =>
    let cs := default ∅ (dbs !! db_name db) in
    (Ok tt, set_mongo (<[db_client db := <[db_name db := base.delete coll cs]> dbs]>
                          (mongo_servers w)) w)).

End Mongo.

(** ** scrapy collaborators *)

(** [scrapy.settings.Settings], with Python's [int] on strings as a
    parameter of [getbool]. *)
Module Settings.

(** [settings.get(name, default)]: the default also answers for a setting
    stored as [None]. *)
Definition get (settings : gmap string pyval) (name : string) (dflt : pyval)
    : pyval :=
  match settings !! name with
  | Some PyNone | None => dflt
  | Some v => v
  end.

(** [bool(int(got))], and on [ValueError] the spellings of True/False. *)
Definition getbool {S} (py_int_of_str : string -> option Z)
    (settings : gmap string pyval) (name : string) (dflt : pyval) : M S bool :=
  match get settings name dflt with
  | PyNone => raise TypeError
  | PyBool b => ret b
  | PyInt z => ret (negb (z =? 0)%Z)
  | PyStr s =>
      match py_int_of_str s with
      | Some z => ret (negb (z =? 0)%Z)
      | None =>
          if bool_decide (s = "True" ∨ s = "true") then ret true
          else if bool_decide (s = "False" ∨ s = "false") then ret false
          else raise ValueError
      end
  end.

(** [int(self.get(name, default))] *)
Definition getint {S} (py_int_of_str : string -> option Z)
    (settings : gmap string pyval) (name : string) (dflt : pyval) : M S Z :=
  match get settings name dflt with
  | PyNone => raise TypeError
  | PyBool b => ret (Z.b2z b)
  | PyInt z => ret z
  | PyStr s =>
      match py_int_of_str s with
      | Some z => ret z
      | None => raise ValueError
      end
  end.

End Settings.

(** [spider.crawler.stats.inc_value(name, spider=spider)] *)
Definition inc_value (name spider : string) : M world unit :=
  do _ <- emit (EvIncValue name spider);
  fun w => (Ok tt, set_stats (<[name := (default 0 (stats w !! name) + 1)%Z]> (stats w)) w).

(** [logger.debug(msg, {"request": request}, extra={"spider": spider})] *)
Definition logger_debug (logger msg spider : string) : M world unit :=
  emit (EvLoggerDebug logger msg spider).

(** Line 15: the module-level logger, [logging.getLogger(__name__)]. *)
Definition logger : string := "mob_scrapy_redis_sentinel.dupefilter".

Definition msg_debug : string := "Filtered duplicate request: %(request)s".
Definition msg_first : string :=
  "Filtered duplicate request %(request)s - no more duplicates will be shown (see DUPEFILTER_DEBUG to show all duplicates)".

(** Attribute lookup [self.logger]: the instance dictionary never holds
    "logger" (no [__init__] assigns it), so the class attribute answers,
    and [AttributeError] is raised where the class body binds none
    ([BaseDupeFilter] defines no logger). *)
Definition getattr_logger {S} (class_logger : option string) : M S string :=
  match class_logger with
  | Some l => ret l
  | None => raise AttributeError
  end.

(** [template % {"spider": name}].  Python's [%] on a [str] and that
    mapping is a parameter (it answers with the formatted string or with
    the exception the template provokes); any other operand has no [%]
    with a mapping. *)
Definition py_mod {S} (py_percent : string -> string -> result string)
    (template : pyval) (name : string) : M S string :=
  match template with
  | PyStr t => fun s => (py_percent t name, s)
  | _ => raise TypeError
  end.

(** ** BloomFilter *)

(** Modelled from the spec: bloomfilter.py (class [BloomFilter]) is not among
    the sources.  Section 4.3: a bit vector of size [2^bit] under the
    filter's key, [hash_number] positions per fingerprint,
    [pos_i = (h1(fp) + i * h2(fp)) mod 2^bit] for [i] in
    [0..hash_number-1]; [insert] sets each of these bits, [exists] answers
    whether all of them are set.  The two base hashes are parameters. *)
Module BloomFilter.

Record t : Type := Build {
  server : string;
  key : string;
  bit : Z;
  hash_number : Z
}.

Section Hashes.
Context (h1 h2 : string -> Z).

Definition positions (bf : t) (fp : string) : list N :=
  map (fun i => Z.to_N ((h1 fp + Z.of_nat i * h2 fp) mod 2 ^ bit bf))
      (seq 0 (Z.to_nat (hash_number bf))).

Fixpoint set_bits (bf : t) (ps : list N) : M world unit :=
  match ps with
  | [] => ret tt
  | p :: ps' => do _ <- Redis.setbit (server bf) (key bf) p; set_bits bf ps'
  end.

Fixpoint all_bits (bf : t) (ps : list N) : M world bool :=
  match ps with
  | [] => ret true
  | p :: ps' =>
      do b <- Redis.getbit (server bf) (key bf) p;
      do rest <- all_bits bf ps';
      ret ((b =? 1)%Z && rest)
  end.

Definition insert (bf : t) (fp : string) : M world unit :=
  do _ <- emit (EvBfInsert (key bf) fp);
  set_bits bf (positions bf fp).

Definition exists_ (bf : t) (fp : string) : M world bool :=
  do _ <- emit (EvBfExists (key bf) fp);
  all_bits bf (positions bf fp).

End Hashes.
End BloomFilter.

(** ** class MongoDupeFilter (lines 18-83) *)
Module MongoDupeFilter.

Record t : Type := Build {
  mongo : string;          (* the MongoClient, by the endpoint it names *)
  mongo_db : pyval;
  collection : string;
  debug : bool;
  logdupes : bool
}.

(** The class body binds no [logger]. *)
Definition class_logger : option string := None.

Definition set_logdupes (b : bool) (self : t) : t :=
  Build (mongo self) (mongo_db self) (collection self) (debug self) b.

(** Lines 19-25. *)
Definition __init__ (mongo_uri db : pyval) (coll : string) (dbg : bool)
    : M world t :=
  do client <- Mongo.MongoClient mongo_uri;
  let self := Build client db coll dbg true in
  do d <- Mongo.getitem (mongo self) (mongo_db self);
  do _ <- Mongo.create_index_fp_unique d (collection self);
  ret self.

Section Methods.
(** [scrapy.utils.request.request_fingerprint], the key template
    [defaults.DUPEFILTER_KEY % {"timestamp": t}] and Python's [int] on
    strings come from outside this file. *)
Context {request : Type} (request_fingerprint : request -> string).
Context (DUPEFILTER_KEY : Z -> string) (py_int_of_str : string -> option Z).

(** Lines 27-33. *)
Definition from_settings (settings : gmap string pyval) : M world t :=
  let mongo_uri := Settings.get settings "MongoFilter_URI" PyNone in
  let db := Settings.get settings "MongoFilter_DB" PyNone in
  do now <- (fun w => (Ok (clock w), w));
  let coll := DUPEFILTER_KEY now in
  do dbg <- Settings.getbool py_int_of_str settings "DUPEFILTER_DEBUG" (PyBool false);
  __init__ mongo_uri db coll dbg.

(** Lines 35-37. *)
Definition from_crawler (crawler_settings : gmap string pyval) : M world t :=
  from_settings crawler_settings.

(** Lines 39-49.  [others] is what the other clients of the server do
    between the lookup's round trip and the insert's; the method on its own
    is [request_seen], with nothing in between. *)
Definition request_seen_with (others : world -> world) (req : request)
    : M (t * world) bool :=
  do self <- get_self;
  let fp := request_fingerprint req in
  do d <- lift (Mongo.getitem (mongo self) (mongo_db self));
  do doc <- lift (Mongo.find_one d (collection self) fp);
  match doc with
  | Some _ => ret true
  | None =>
      do _ <- lift (fun w => (Ok tt, others w));
      do d' <- lift (Mongo.getitem (mongo self) (mongo_db self));
      do _ <- try_except
                (lift (Mongo.insert_one d' (collection self) fp))
                (fun e => match e with
                          | DuplicateKeyError => ret tt
                          | _ => raise e
                          end);
      ret false
  end.

Definition request_seen (req : request) : M (t * world) bool :=
  request_seen_with (fun w => w) req.

(** Lines 67-68: [self.mongo.drop_collection(self.collection)].  The
    receiver is the client, not the database [self.mongo[self.mongo_db]]:
    the attribute is looked up on [MongoClient], which has no such method. *)
Definition clear : M (t * world) unit :=
  do self <- get_self;
  do f <- lift (Mongo.getattr (mongo self) "drop_collection");
  lift (Mongo.call f [PyStr (collection self)]).

(** Lines 64-65. *)
Definition close (reason : string) : M (t * world) unit := clear.

(** Lines 70-83. *)
Definition log (req : request) (spider : string) : M (t * world) unit :=
  do self <- get_self;
  do _ <- (if debug self then
             do lg <- getattr_logger class_logger;
             lift (logger_debug lg msg_debug spider)
           else if logdupes self then
             do lg <- getattr_logger class_logger;
             do _ <- lift (logger_debug lg msg_first spider);
             set_self (set_logdupes false self)
           else ret tt);
  lift (inc_value "dupefilter/filtered" spider).

End Methods.

Section FromSpider.
(** [defaults.SCHEDULER_DUPEFILTER_KEY], Python's [%] and [int] come from
    outside this file; a spider is its [name] and its [settings]. *)
Context (SCHEDULER_DUPEFILTER_KEY : string).
Context (py_percent : string -> string -> result string).
Context (py_int_of_str : string -> option Z).

(** Lines 54-62. *)
Definition from_spider (spider_name : string) (settings : gmap string pyval)
    : M world t :=
  let mongo_uri := Settings.get settings "MongoFilter_URI" PyNone in
  let db := Settings.get settings "MongoFilter_DB" PyNone in
  let dupefilter_key :=
    Settings.get settings "SCHEDULER_DUPEFILTER_KEY"
      (PyStr SCHEDULER_DUPEFILTER_KEY) in
  do coll <- py_mod py_percent dupefilter_key spider_name;
  do dbg <- Settings.getbool py_int_of_str settings "DUPEFILTER_DEBUG" (PyBool false);
  __init__ mongo_uri db coll dbg.

End FromSpider.
End MongoDupeFilter.

(** ** class RedisDupeFilter (lines 87-233) *)
Module RedisDupeFilter.

Record t : Type := Build {
  server : string;         (* the redis client, by the server it names *)
  key : string;
  debug : bool;
  logdupes : bool
}.

(** Line 94: [logger = logger]. *)
Definition class_logger : option string := Some logger.

Definition set_logdupes (b : bool) (self : t) : t :=
  Build (server self) (key self) (debug self) b.

(** Lines 96-112. *)
Definition __init__ (srv k : string) (dbg : bool) : M world t :=
  ret (Build srv k dbg true).

Section Methods.
Context {request : Type} (request_fingerprint : request -> string).

(** Lines 158-173. *)
Definition request_seen (req : request) : M (t * world) bool :=
  do self <- get_self;
  let fp := request_fingerprint req in
  do added <- lift (Redis.sadd (server self) (key self) fp);
  ret (added =? 0)%Z.

(** Lines 208-210. *)
Definition clear : M (t * world) unit :=
  do self <- get_self;
  do _ <- lift (Redis.delete (server self) (key self));
  ret tt.

(** Lines 198-206. *)
Definition close (reason : string) : M (t * world) unit := clear.

(** Lines 212-233. *)
Definition log (req : request) (spider : string) : M (t * world) unit :=
  do self <- get_self;
  do _ <- (if debug self then
             do lg <- getattr_logger class_logger;
             lift (logger_debug lg msg_debug spider)
           else if logdupes self then
             do lg <- getattr_logger class_logger;
             do _ <- lift (logger_debug lg msg_first spider);
             set_self (set_logdupes false self)
           else ret tt);
  lift (inc_value "dupefilter/filtered" spider).

End Methods.

Section Constructors.
(** [connection.from_settings] (the redis client for these settings, by
    the server it names), the key templates of [defaults], Python's [%]
    and [int] come from outside this file. *)
Context (connection_from_settings : gmap string pyval -> M world string).
Context (DUPEFILTER_KEY : Z -> string) (SCHEDULER_DUPEFILTER_KEY : string).
Context (py_percent : string -> string -> result string).
Context (py_int_of_str : string -> option Z).

(** Lines 114-140. *)
Definition from_settings (settings : gmap string pyval) : M world t :=
  do srv <- connection_from_settings settings;
  do now <- (fun w => (Ok (clock w), w));
  let k := DUPEFILTER_KEY now in
  do dbg <- Settings.getbool py_int_of_str settings "DUPEFILTER_DEBUG" (PyBool false);
  __init__ srv k dbg.

(** Lines 142-156. *)
Definition from_crawler (crawler_settings : gmap string pyval) : M world t :=
  from_settings crawler_settings.

(** Lines 189-196. *)
Definition from_spider (spider_name : string) (settings : gmap string pyval)
    : M world t :=
  do srv <- connection_from_settings settings;
  let dupefilter_key :=
    Settings.get settings "SCHEDULER_DUPEFILTER_KEY"
      (PyStr SCHEDULER_DUPEFILTER_KEY) in
  do k <- py_mod py_percent dupefilter_key spider_name;
  do dbg <- Settings.getbool py_int_of_str settings "DUPEFILTER_DEBUG" (PyBool false);
  __init__ srv k dbg.

End Constructors.
End RedisDupeFilter.

(** ** class RedisBloomFilter (lines 236-378) *)
Module RedisBloomFilter.

Record t : Type := Build {
  server : string;
  key : string;
  debug : bool;
  logdupes : bool;
  bit : Z;
  hash_number : Z;
  bf : BloomFilter.t
}.

(** Line 243: [logger = logger]. *)
Definition class_logger : option string := Some logger.

Definition set_logdupes (b : bool) (self : t) : t :=
  Build (server self) (key self) (debug self) b (bit self) (hash_number self)
        (bf self).

(** Lines 245-264. *)
Definition __init__ (srv k : string) (dbg : bool) (b hn : Z) : M world t :=
  ret (Build srv k dbg true b hn (BloomFilter.Build srv k b hn)).

Section Methods.
Context {request : Type} (request_fingerprint : request -> string).
Context (h1 h2 : string -> Z).

(** Lines 312-328. *)
Definition request_seen (req : request) : M (t * world) bool :=
  do self <- get_self;
  let fp := request_fingerprint req in
  do found <- lift (BloomFilter.exists_ h1 h2 (bf self) fp);
  if found then ret true
  else do _ <- lift (BloomFilter.insert h1 h2 (bf self) fp);
       ret false.

(** Lines 354-356. *)
Definition clear : M (t * world) unit :=
  do self <- get_self;
  do _ <- lift (Redis.delete (server self) (key self));
  ret tt.

(** Lines 344-352. *)
Definition close (reason : string) : M (t * world) unit := clear.

(** Lines 358-378. *)
Definition log (req : request) (spider : string) : M (t * world) unit :=
  do self <- get_self;
  do _ <- (if debug self then
             do lg <- getattr_logger class_logger;
             lift (logger_debug lg msg_debug spider)
           else if logdupes self then
             do lg <- getattr_logger class_logger;
             do _ <- lift (logger_debug lg msg_first spider);
             set_self (set_logdupes false self)
           else ret tt);
  lift (inc_value "bloomfilter/filtered" spider).

End Methods.

Section Constructors.
Context (connection_from_settings : gmap string pyval -> M world string).
Context (DUPEFILTER_KEY : Z -> string).
Context (py_int_of_str : string -> option Z).

(** Lines 266-294. *)
Definition from_settings (settings : gmap string pyval) : M world t :=
  do srv <- connection_from_settings settings;
  do now <- (fun w => (Ok (clock w), w));
  let k := DUPEFILTER_KEY now in
  do dbg <- Settings.getbool py_int_of_str settings "DUPEFILTER_DEBUG" (PyBool false);
  do b <- Settings.getint py_int_of_str settings "BLOOMFILTER_BIT" (PyInt 30);
  do hn <- Settings.getint py_int_of_str settings "BLOOMFILTER_HASH_NUMBER" (PyInt 6);
  __init__ srv k dbg b hn.

(** Lines 296-310. *)
Definition from_crawler (crawler_settings : gmap string pyval) : M world t :=
  from_settings crawler_settings.

End Constructors.
End RedisBloomFilter.

(** ** Running a method over a list of requests, one call after the other *)
Fixpoint run_all {S A B} (f : A -> M S B) (xs : list A) : M S (list B) :=
  match xs with
  | [] => ret []
  | x :: xs' => do b <- f x; do bs <- run_all f xs'; ret (b :: bs)
  end.

(** ** Views of the stores *)

(** The members recorded under a Redis key: the empty set for a key that
    does not exist, nothing for an unreachable server or a key of another
    type. *)
Definition redis_members (w : world) (server key : string) : option (gset string) :=
  db ← redis_servers w !! server;
  match db !! key with
  | None => Some ∅
  | Some (RSet s) => Some s
  | Some (RStr _) => None
  end.

(** A Redis key that does not exist on a reachable server. *)
Definition redis_fresh (w : world) (server key : string) : Prop :=
  ∃ db, redis_servers w !! server = Some db ∧ db !! key = None.

(** The collection behind a Mongo filter instance, if it exists. *)
Definition mongo_coll (w : world) (self : MongoDupeFilter.t) : option mongo_collection :=
  match MongoDupeFilter.mongo_db self with
  | PyStr d =>
      dbs ← mongo_servers w !! MongoDupeFilter.mongo self;
      Mongo.lookup_coll dbs d (MongoDupeFilter.collection self)
  | _ => None
  end.

(** A Mongo filter instance whose server answers and whose database name
    is a string: what a successful [__init__] leaves. *)
Definition mongo_usable (w : world) (self : MongoDupeFilter.t) : Prop :=
  (∃ d, MongoDupeFilter.mongo_db self = PyStr d) ∧
  is_Some (mongo_servers w !! MongoDupeFilter.mongo self).

(** The fingerprints stored for a Mongo filter instance. *)
Definition mongo_stored (w : world) (self : MongoDupeFilter.t) : list string :=
  from_option docs [] (mongo_coll w self).

Definition is_bf_call (e : event) : bool :=
  match e with
  | EvBfExists _ _ | EvBfInsert _ _ => true
  | _ => false
  end.

Definition is_create_index (e : event) : bool :=
  match e with
  | EvCreateIndex _ _ _ => true
  | _ => false
  end.

(** [w'] extends the trace of [w] by events none of which is a call on the
    Bloom filter object. *)
Definition no_bf_call_between (w w' : world) : Prop :=
  exists es, trace w' = trace w ++ es /\ List.filter is_bf_call es = [].

(** A computation that leaves the instance it runs on as it found it,
    also when it raises. *)
Definition keeps_self {I A} (m : M (I * world) A) : Prop :=
  forall s, fst (snd (m s)) = fst s.

(** Two instances that agree on every field but, possibly, [logdupes]. *)
Definition mongo_same_but_logdupes (a b : MongoDupeFilter.t) : Prop :=
  MongoDupeFilter.mongo a = MongoDupeFilter.mongo b /\
  MongoDupeFilter.mongo_db a = MongoDupeFilter.mongo_db b /\
  MongoDupeFilter.collection a = MongoDupeFilter.collection b /\
  MongoDupeFilter.debug a = MongoDupeFilter.debug b.

Definition redis_same_but_logdupes (a b : RedisDupeFilter.t) : Prop :=
  RedisDupeFilter.server a = RedisDupeFilter.server b /\
  RedisDupeFilter.key a = RedisDupeFilter.key b /\
  RedisDupeFilter.debug a = RedisDupeFilter.debug b.

Definition bloom_same_but_logdupes (a b : RedisBloomFilter.t) : Prop :=
  RedisBloomFilter.server a = RedisBloomFilter.server b /\
  RedisBloomFilter.key a = RedisBloomFilter.key b /\
  RedisBloomFilter.debug a = RedisBloomFilter.debug b /\
  RedisBloomFilter.bit a = RedisBloomFilter.bit b /\
  RedisBloomFilter.hash_number a = RedisBloomFilter.hash_number b /\
  RedisBloomFilter.bf a = RedisBloomFilter.bf b.

(** ** Concrete worlds and instances for the examples *)

(** One Redis server and one MongoDB server, both empty. *)
Definition w_redis : world :=
  World {["redis" := ∅]} ∅ 1700000000 ∅ [].
Definition w_mongo : world :=
  World ∅ {["mongodb://db0" := ∅]} 1700000000 ∅ [].
Definition job1 : RedisDupeFilter.t :=
  RedisDupeFilter.Build "redis" "job1" false true.
Definition mongo_job1 : MongoDupeFilter.t :=
  MongoDupeFilter.Build "mongodb://db0" (PyStr "crawl") "job1" false true.

(** The world once [mongo_job1] has been constructed in [w_mongo]. *)
Definition w_mongo_job1 : world :=
  snd (MongoDupeFilter.__init__ (PyStr "mongodb://db0") (PyStr "crawl")
         "job1" false w_mongo).
Definition db_crawl : Mongo.database := Mongo.Database "mongodb://db0" "crawl".

(** A second client of the same namespace asking for "a". *)
Definition rival (w : world) : result bool * (MongoDupeFilter.t * world) :=
  MongoDupeFilter.request_seen (fun r : string => r) "a" (mongo_job1, w).
Definition rival_world (w : world) : world := snd (snd (rival w)).

(** [mongo_job1] after its first call for "a". *)
Definition s_mongo_seen_a : MongoDupeFilter.t * world :=
  snd (MongoDupeFilter.request_seen (fun r : string => r) "a"
         (mongo_job1, w_mongo_job1)).

(** A Mongo filter constructed with [debug] set. *)
Definition mongo_dbg : MongoDupeFilter.t :=
  MongoDupeFilter.Build "mongodb://db0" (PyStr "crawl") "job1" true true.

(** ** The logging policy in the spec's words (section 4.1) *)

(** One call of [log]: with [debug] set the duplicate is logged; otherwise
    it is logged only while [logdupes] is still set; the counter [name] is
    incremented in every case. *)
Definition log_call_events (name spider : string) (dbg ld : bool) : list event :=
  (if dbg then [EvLoggerDebug logger msg_debug spider]
   else if ld then [EvLoggerDebug logger msg_first spider]
   else [])
  ++ [EvIncValue name spider].

(** [n] calls of [log] over the lifetime of an instance: with [debug] set
    every duplicate is logged; otherwise only the first one is; the counter
    is incremented once per call. *)
Definition log_lifetime_events (name spider : string) (dbg : bool) (n : nat)
    : list event :=
  if dbg
  then concat (repeat [EvLoggerDebug logger msg_debug spider;
                       EvIncValue name spider] n)
  else match n with
       | O => []
       | S m => EvLoggerDebug logger msg_first spider
                :: repeat (EvIncValue name spider) (S m)
       end.

(** The instance after one call of [log]: [logdupes] is cleared unless
    [debug] is set. *)
Definition redis_after_log (self : RedisDupeFilter.t) : RedisDupeFilter.t :=
  if RedisDupeFilter.debug self then self
  else RedisDupeFilter.set_logdupes false self.
Definition bloom_after_log (self : RedisBloomFilter.t) : RedisBloomFilter.t :=
  if RedisBloomFilter.debug self then self
  else RedisBloomFilter.set_logdupes false self.

(** The stats after one increment of [name]. *)
Definition stats_incremented (name : string) (st : gmap string Z) : gmap string Z :=
  <[name := (default 0 (st !! name) + 1)%Z]> st.

(** ** Settings for the examples *)

(** A key template with the timestamp placeholder, and a settings object
    that names the database but no connection URI; the only server that
    answers is the one at the client's default endpoint.  The settings of
    the examples hold no string under DUPEFILTER_DEBUG, so Python's [int]
    on strings is never asked and [int_never_asked] stands in for it. *)
Definition key_of_timestamp (t : Z) : string := "dupefilter:" +:+ pretty t.
Definition int_never_asked (s : string) : option Z := None.
Definition settings_no_uri : gmap string pyval :=
  {["MongoFilter_DB" := PyStr "crawl"]}.
Definition w_localhost : world :=
  World ∅ {[Mongo.HOST := ∅]} 1700000000 ∅ [].
Definition mongo_default : MongoDupeFilter.t :=
  MongoDupeFilter.Build Mongo.HOST (PyStr "crawl") "dupefilter:1700000000"
    false true.

(** ** Further views of the world *)

(** What a Redis server holds under a key. *)
Definition redis_value (w : world) (server key : string) : option rvalue :=
  redis_servers w !! server ≫= fun db => db !! key.

(** The collection [coll] of database [d] on a MongoDB server. *)
Definition mongo_value (w : world) (client d coll : string)
    : option mongo_collection :=
  mongo_servers w !! client ≫= fun dbs => Mongo.lookup_coll dbs d coll.

(** The same world at another time. *)
Definition set_clock (t : Z) (w : world) : world :=
  World (redis_servers w) (mongo_servers w) t (stats w) (trace w).

(** Two Mongo filter instances on the same namespace. *)
Definition mongo_same_namespace (a b : MongoDupeFilter.t) : Prop :=
  MongoDupeFilter.mongo a = MongoDupeFilter.mongo b /\
  MongoDupeFilter.mongo_db a = MongoDupeFilter.mongo_db b /\
  MongoDupeFilter.collection a = MongoDupeFilter.collection b.

(** More concrete worlds: a Redis server whose key "job1" already holds
    the members "a" and "b", one whose key "job1" holds a string, and a
    world without any server. *)
Definition w_redis_ab : world :=
  World {["redis" := {["job1" := RSet {["a"; "b"]}]}]} ∅ 1700000000 ∅ [].
Definition w_redis_str : world :=
  World {["redis" := {["job1" := RStr 5]}]} ∅ 1700000000 ∅ [].
Definition w_nowhere : world := World ∅ ∅ 1700000000 ∅ [].
Definition job1_debug : RedisDupeFilter.t :=
  RedisDupeFilter.Build "redis" "job1" true true.
Definition bloom_job1 : RedisBloomFilter.t :=
  RedisBloomFilter.Build "redis" "job1" false true 10 2
    (BloomFilter.Build "redis" "job1" 10 2).
Definition mongo_job1_debug : MongoDupeFilter.t :=
  MongoDupeFilter.Build "mongodb://db0" (PyStr "crawl") "job1" true true.
Definition mongo_no_db : MongoDupeFilter.t :=
  MongoDupeFilter.Build "mongodb://db0" PyNone "job1" false true.

(** * Properties *)

Ltac unfold_monad :=
  unfold bind, ret, raise, try_except, lift, get_self, set_self, emit in *;
  simpl in *.

Lemma new_events_app (w w' : world) (es : list event) :
  trace w' = trace w ++ es -> new_events w w' = es.
Proof.
  intros H. unfold new_events. rewrite H. apply drop_app_length.
Qed.

(** *** RedisDupeFilter *)

Lemma sadd_trace (server key member : string) (w : world) :
  trace (snd (Redis.sadd server key member w))
  = trace w ++ [EvSadd server key member].
Proof.
  unfold Redis.sadd, Redis.with_server, Redis.store. unfold_monad.
  destruct (redis_servers w !! server) as [db|]; simpl; [|done].
  destruct (db !! key) as [[s|n]|]; simpl; try done.
  destruct (decide (member ∈ s)); done.
Qed.

(** C2: [RedisDupeFilter.request_seen] is one SADD on the instance's key and
    nothing else: its answer is "the add-count of that SADD is zero", the
    world it leaves is the one the SADD leaves, the instance is as before,
    and the only operation it issued is that SADD. *)
Theorem C2_request_seen_is_one_sadd :
  forall (request : Type) (fpr : request -> string)
         (self : RedisDupeFilter.t) (req : request) (w : world),
    let op := Redis.sadd (RedisDupeFilter.server self)
                         (RedisDupeFilter.key self) (fpr req) w in
    RedisDupeFilter.request_seen fpr req (self, w)
    = (result_map (fun added => (added =? 0)%Z) (fst op), (self, snd op))
    /\ new_events w (snd op)
       = [EvSadd (RedisDupeFilter.server self) (RedisDupeFilter.key self) (fpr req)].
Proof.
  intros request fpr self req w op. split.
  - unfold RedisDupeFilter.request_seen. unfold_monad. fold op.
    destruct op as [[added|e] w1]; reflexivity.
  - apply new_events_app. apply sadd_trace.
Qed.

(** *** Exactness of a filter, from a one-call invariant *)
Section Exact.
Context {S A : Type} (f : A -> M S bool) (fp : A -> string).
Context (Inv : list string -> S -> Prop).
Hypothesis step : forall l s x,
  Inv l s ->
  exists s', f x s = (Ok (bool_decide (fp x ∈ l)), s') /\ Inv (l ++ [fp x]) s'.

Lemma run_all_inv (xs : list A) : forall l s,
  Inv l s ->
  exists bs s', run_all f xs s = (Ok bs, s') /\ Inv (l ++ map fp xs) s'.
Proof.
  induction xs as [|x xs IH]; intros l s HI; simpl.
  - exists [], s. rewrite app_nil_r. done.
  - destruct (step l s x HI) as (s1 & Hf & HI1).
    destruct (IH _ _ HI1) as (bs & s2 & Hr & HI2).
    exists (bool_decide (fp x ∈ l) :: bs), s2.
    unfold bind, ret. rewrite Hf, Hr. rewrite <- app_assoc in HI2. done.
Qed.

Lemma exact_after (s : S) (pre : list A) (x : A) :
  Inv [] s ->
  exists bs s1 s2,
    run_all f pre s = (Ok bs, s1) /\
    f x s1 = (Ok (bool_decide (fp x ∈ map fp pre)), s2).
Proof.
  intros HI. destruct (run_all_inv pre [] s HI) as (bs & s1 & Hr & HI1).
  destruct (step _ _ x HI1) as (s2 & Hf & _).
  exists bs, s1, s2. done.
Qed.
End Exact.

Lemma redis_request_seen_step {request : Type} (fpr : request -> string)
    (self : RedisDupeFilter.t) (req : request) (w : world) (s : gset string) :
  redis_members w (RedisDupeFilter.server self) (RedisDupeFilter.key self) = Some s ->
  exists w',
    RedisDupeFilter.request_seen fpr req (self, w)
    = (Ok (bool_decide (fpr req ∈ s)), (self, w')) /\
    redis_members w' (RedisDupeFilter.server self) (RedisDupeFilter.key self)
    = Some ({[fpr req]} ∪ s).
Proof.
  unfold redis_members, RedisDupeFilter.request_seen, Redis.sadd,
    Redis.with_server, Redis.store.
  unfold_monad. intros Hm.
  destruct (redis_servers w !! RedisDupeFilter.server self) as [db|] eqn:Hs;
    simpl in *; [|done].
  destruct (db !! RedisDupeFilter.key self) as [[m|n]|] eqn:Hk; simpl in *;
    [injection Hm as -> | done | injection Hm as <-].
  - destruct (decide (fpr req ∈ s)) as [Hin|Hin]; simpl.
    + eexists. split.
      * rewrite (bool_decide_eq_true_2 _ Hin). reflexivity.
      * simpl. rewrite Hs. simpl. rewrite Hk. f_equal. symmetry.
        apply subseteq_union_1_L, singleton_subseteq_l, Hin.
    + eexists. split.
      * rewrite (bool_decide_eq_false_2 _ Hin). reflexivity.
      * simpl. rewrite lookup_insert_eq. simpl. rewrite lookup_insert_eq. done.
  - eexists. split.
    + rewrite (bool_decide_eq_false_2 (fpr req ∈ (∅ : gset string)));
        [reflexivity | apply not_elem_of_empty].
    + simpl. rewrite lookup_insert_eq. simpl. rewrite lookup_insert_eq.
      f_equal. by rewrite (right_id_L ∅ (∪)).
Qed.

(** *** MongoDupeFilter *)

Ltac unfold_mongo :=
  unfold MongoDupeFilter.request_seen, MongoDupeFilter.request_seen_with,
    MongoDupeFilter.clear, MongoDupeFilter.close, MongoDupeFilter.__init__,
    Mongo.getattr, Mongo.call, Mongo.MongoClient,
    Mongo.find_one, Mongo.insert_one, Mongo.create_index_fp_unique,
    Mongo.drop_collection, Mongo.getitem, Mongo.with_server,
    Mongo.store_coll, mongo_stored, mongo_coll, mongo_usable in *.

Lemma lookup_coll_insert (dbs : gmap string (gmap string mongo_collection))
    (d coll : string) (c : mongo_collection) :
  Mongo.lookup_coll (<[d := <[coll := c]> (default ∅ (dbs !! d))]> dbs) d coll
  = Some c.
Proof.
  unfold Mongo.lookup_coll. rewrite lookup_insert_eq. simpl.
  apply lookup_insert_eq.
Qed.

Lemma lookup_coll_delete (dbs : gmap string (gmap string mongo_collection))
    (d coll : string) (cs : gmap string mongo_collection) :
  Mongo.lookup_coll (<[d := base.delete coll cs]> dbs) d coll = None.
Proof.
  unfold Mongo.lookup_coll. rewrite lookup_insert_eq. simpl.
  apply lookup_delete_eq.
Qed.

Lemma mongo_request_seen_step {request : Type} (fpr : request -> string)
    (self : MongoDupeFilter.t) (req : request) (w : world) :
  mongo_usable w self ->
  exists w',
    MongoDupeFilter.request_seen fpr req (self, w)
    = (Ok (bool_decide (fpr req ∈ mongo_stored w self)), (self, w')) /\
    mongo_usable w' self /\
    mongo_stored w' self
    = (if bool_decide (fpr req ∈ mongo_stored w self)
       then mongo_stored w self else mongo_stored w self ++ [fpr req]).
Proof.
  destruct self as [client db coll dbg ld].
  intros [[d Hd] [dbs Hs]]. simpl in Hd, Hs. subst db.
  unfold_mongo. unfold_monad. rewrite Hs. simpl.
  destruct (Mongo.lookup_coll dbs d coll) as [c|] eqn:Hc; simpl.
  - destruct (decide (fpr req ∈ docs c)) as [Hin|Hin]; simpl.
    + rewrite (bool_decide_eq_true_2 _ Hin). eexists.
      split; [reflexivity|]. simpl. rewrite Hs. simpl. rewrite Hc. simpl.
      eauto.
    + rewrite (bool_decide_eq_false_2 _ Hin). rewrite Hs. simpl. rewrite Hc.
      simpl. rewrite (bool_decide_eq_false_2 _ Hin), andb_false_r. simpl.
      eexists.
      split; [reflexivity|]. simpl. rewrite lookup_insert_eq. simpl.
      rewrite lookup_coll_insert. simpl. eauto.
  - rewrite Hs. simpl. rewrite Hc. simpl. eexists.
    split; [reflexivity|]. simpl. rewrite lookup_insert_eq. simpl.
    rewrite lookup_coll_insert. simpl. eauto.
Qed.

Lemma mongo_init_usable (uri db : pyval) (coll : string) (dbg : bool)
    (w0 w : world) (self : MongoDupeFilter.t) :
  MongoDupeFilter.__init__ uri db coll dbg w0 = (Ok self, w) ->
  mongo_usable w self /\
  (exists c, mongo_coll w self = Some c /\ unique_fp c = true) /\
  MongoDupeFilter.logdupes self = true /\
  MongoDupeFilter.debug self = dbg.
Proof.
  unfold_mongo. unfold_monad.
  destruct uri as [| |z|uri]; simpl; try done;
    destruct db as [| |z'|d]; simpl; try done.
  all: match goal with
       | |- context [mongo_servers ?w1 !! ?h] =>
           destruct (mongo_servers w1 !! h) as [dbs|] eqn:Hs; simpl; [|done]
       end.
  all: match goal with
       | |- context [decide (NoDup ?l)] => destruct (decide (NoDup l)); simpl; [|done]
       end.
  all: intros [= <- <-]; simpl; rewrite lookup_insert_eq; simpl;
    rewrite lookup_coll_insert; eauto 10.
Qed.

(** C1: an exact filter on a fresh namespace answers a call for fingerprint
    [f] with "seen" exactly when an earlier call on the same namespace
    carried [f]: the first call for [f] answers false, every later one
    true, whatever other fingerprints were asked in between and without
    any call raising.  For [RedisDupeFilter] fresh means that the key does
    not exist on its server; for [MongoDupeFilter], that the instance comes
    out of [__init__] with nothing stored in its collection. *)
Theorem C1_exact_filters_first_false_then_true :
  forall (request : Type) (fpr : request -> string),
    (forall (self : RedisDupeFilter.t) (w : world) (pre : list request)
            (req : request),
        redis_fresh w (RedisDupeFilter.server self) (RedisDupeFilter.key self) ->
        exists bs s1 s2,
          run_all (RedisDupeFilter.request_seen fpr) pre (self, w) = (Ok bs, s1) /\
          RedisDupeFilter.request_seen fpr req s1
          = (Ok (bool_decide (fpr req ∈ map fpr pre)), s2))
    /\
    (forall (uri db : pyval) (coll : string) (dbg : bool) (w0 w : world)
            (self : MongoDupeFilter.t) (pre : list request) (req : request),
        MongoDupeFilter.__init__ uri db coll dbg w0 = (Ok self, w) ->
        mongo_stored w self = [] ->
        exists bs s1 s2,
          run_all (MongoDupeFilter.request_seen fpr) pre (self, w) = (Ok bs, s1) /\
          MongoDupeFilter.request_seen fpr req s1
          = (Ok (bool_decide (fpr req ∈ map fpr pre)), s2)).
Proof.
  intros request fpr. split.
  - intros self w pre req (db & Hs & Hk).
    apply (exact_after (RedisDupeFilter.request_seen fpr) fpr
             (fun l s => fst s = self /\
                redis_members (snd s) (RedisDupeFilter.server self)
                  (RedisDupeFilter.key self) = Some (list_to_set l))).
    + intros l [self' w1] x [Hself Hm]; simpl in *. subst self'.
      destruct (redis_request_seen_step fpr self x w1 _ Hm) as (w2 & Hr & Hm2).
      exists (self, w2). split; [|split; [done|]].
      * rewrite Hr. do 2 f_equal. apply bool_decide_ext.
        rewrite elem_of_list_to_set. done.
      * simpl. rewrite Hm2. f_equal. rewrite list_to_set_app_L. simpl.
        rewrite (right_id_L ∅ (∪)). apply (comm_L (∪)).
    + simpl. split; [done|]. unfold redis_members. rewrite Hs. simpl.
      rewrite Hk. done.
  - intros uri db coll dbg w0 w self pre req Hinit Hempty.
    destruct (mongo_init_usable _ _ _ _ _ _ _ Hinit) as (Hu & _).
    apply (exact_after (MongoDupeFilter.request_seen fpr) fpr
             (fun l s => fst s = self /\ mongo_usable (snd s) self /\
                forall x, x ∈ mongo_stored (snd s) self <-> x ∈ l)).
    + intros l [self' w1] x (Hself & Hu1 & Hm); simpl in *. subst self'.
      destruct (mongo_request_seen_step fpr self x w1 Hu1) as (w2 & Hr & Hu2 & Hst).
      exists (self, w2). split; [|split; [done|split; [done|]]].
      * rewrite Hr. do 2 f_equal. apply bool_decide_ext. apply Hm.
      * simpl. intros y. rewrite Hst. rewrite elem_of_app, list_elem_of_singleton.
        case_bool_decide as Hin.
        -- rewrite Hm. split; [tauto|]. intros [?| ->]; [done|]. by apply Hm.
        -- rewrite elem_of_app, list_elem_of_singleton, Hm. done.
    + simpl. split; [done|]. split; [done|]. intros x. rewrite Hempty. done.
Qed.

Lemma C1_exact_filters_witness :
  (exists bs s1 s2,
      run_all (RedisDupeFilter.request_seen (fun r : string => r)) ["a"; "b"]
        (job1, w_redis) = (Ok bs, s1) /\
      RedisDupeFilter.request_seen (fun r : string => r) "a" s1
      = (Ok (bool_decide ("a" ∈ map (fun r : string => r) ["a"; "b"])), s2))
  /\
  (exists bs s1 s2,
      run_all (MongoDupeFilter.request_seen (fun r : string => r)) ["a"; "b"]
        (mongo_job1, w_mongo_job1) = (Ok bs, s1) /\
      MongoDupeFilter.request_seen (fun r : string => r) "a" s1
      = (Ok (bool_decide ("a" ∈ map (fun r : string => r) ["a"; "b"])), s2)).
Proof.
  split.
  - apply (proj1 (C1_exact_filters_first_false_then_true string (fun r => r))).
    exists ∅. split; reflexivity.
  - apply (proj2 (C1_exact_filters_first_false_then_true string (fun r => r))
             (PyStr "mongodb://db0") (PyStr "crawl") "job1" false w_mongo).
    + reflexivity.
    + reflexivity.
Defined.

(** *** RedisBloomFilter *)

Lemma getbit_trace (server key : string) (p : N) (w : world) :
  trace (snd (Redis.getbit server key p w)) = trace w ++ [EvGetbit server key p].
Proof.
  unfold Redis.getbit, Redis.with_server. unfold_monad.
  destruct (redis_servers w !! server) as [db|]; simpl; [|done].
  destruct (db !! key) as [[s|n]|]; done.
Qed.

Lemma setbit_trace (server key : string) (p : N) (w : world) :
  trace (snd (Redis.setbit server key p w)) = trace w ++ [EvSetbit server key p].
Proof.
  unfold Redis.setbit, Redis.with_server, Redis.store. unfold_monad.
  destruct (redis_servers w !! server) as [db|]; simpl; [|done].
  destruct (db !! key) as [[s|n]|]; done.
Qed.

Lemma all_bits_trace (bf : BloomFilter.t) (ps : list N) : forall w,
  no_bf_call_between w (snd (BloomFilter.all_bits bf ps w)).
Proof.
  induction ps as [|p ps IH]; intros w; simpl.
  - exists []. by rewrite app_nil_r.
  - unfold bind at 1.
    pose proof (getbit_trace (BloomFilter.server bf) (BloomFilter.key bf) p w) as Hg.
    destruct (Redis.getbit _ _ p w) as [[b|e] w1]; simpl in *.
    + unfold bind at 1. destruct (IH w1) as (es & Ht & Hf).
      destruct (BloomFilter.all_bits bf ps w1) as [[r|e] w2]; simpl in *;
        exists (EvGetbit (BloomFilter.server bf) (BloomFilter.key bf) p :: es);
        rewrite Ht, Hg, <- app_assoc; done.
    + exists [EvGetbit (BloomFilter.server bf) (BloomFilter.key bf) p]. done.
Qed.

Lemma set_bits_trace (bf : BloomFilter.t) (ps : list N) : forall w,
  no_bf_call_between w (snd (BloomFilter.set_bits bf ps w)).
Proof.
  induction ps as [|p ps IH]; intros w; simpl.
  - exists []. by rewrite app_nil_r.
  - unfold bind at 1.
    pose proof (setbit_trace (BloomFilter.server bf) (BloomFilter.key bf) p w) as Hg.
    destruct (Redis.setbit _ _ p w) as [[b|e] w1]; simpl in *.
    + destruct (IH w1) as (es & Ht & Hf).
      exists (EvSetbit (BloomFilter.server bf) (BloomFilter.key bf) p :: es).
      rewrite Ht, Hg, <- app_assoc. done.
    + exists [EvSetbit (BloomFilter.server bf) (BloomFilter.key bf) p]. done.
Qed.

Lemma bf_exists_calls (h1 h2 : string -> Z) (bf : BloomFilter.t) (fp : string)
    (w : world) :
  exists es,
    trace (snd (BloomFilter.exists_ h1 h2 bf fp w))
    = trace w ++ EvBfExists (BloomFilter.key bf) fp :: es /\
    List.filter is_bf_call es = [].
Proof.
  unfold BloomFilter.exists_. unfold_monad.
  destruct (all_bits_trace bf (BloomFilter.positions h1 h2 bf fp)
              (set_trace (trace w ++ [EvBfExists (BloomFilter.key bf) fp]) w))
    as (es & Ht & Hf).
  exists es. split; [|done]. rewrite Ht. simpl. by rewrite <- app_assoc.
Qed.

Lemma bf_insert_calls (h1 h2 : string -> Z) (bf : BloomFilter.t) (fp : string)
    (w : world) :
  exists es,
    trace (snd (BloomFilter.insert h1 h2 bf fp w))
    = trace w ++ EvBfInsert (BloomFilter.key bf) fp :: es /\
    List.filter is_bf_call es = [].
Proof.
  unfold BloomFilter.insert. unfold_monad.
  destruct (set_bits_trace bf (BloomFilter.positions h1 h2 bf fp)
              (set_trace (trace w ++ [EvBfInsert (BloomFilter.key bf) fp]) w))
    as (es & Ht & Hf).
  exists es. split; [|done]. rewrite Ht. simpl. by rewrite <- app_assoc.
Qed.

(** C3: [RedisBloomFilter.request_seen] first calls [exists] on its Bloom
    filter.  When [exists] answers true the method returns true in the very
    state [exists] left, and [exists] is the only call made on the Bloom
    filter.  When it answers false the method calls [insert], once, and
    returns false (or lets the store's error of that [insert] through);
    the calls on the Bloom filter are then [exists], [insert], in this
    order.  The instance itself is never changed. *)
Theorem C3_bloom_request_seen_exists_then_insert :
  forall (request : Type) (fpr : request -> string) (h1 h2 : string -> Z)
         (self : RedisBloomFilter.t) (req : request) (w : world),
    let fp := fpr req in
    let bfk := BloomFilter.key (RedisBloomFilter.bf self) in
    let looked := BloomFilter.exists_ h1 h2 (RedisBloomFilter.bf self) fp w in
    let inserted :=
      BloomFilter.insert h1 h2 (RedisBloomFilter.bf self) fp (snd looked) in
    match fst looked with
    | Ok true =>
        RedisBloomFilter.request_seen fpr h1 h2 req (self, w)
        = (Ok true, (self, snd looked)) /\
        List.filter is_bf_call (new_events w (snd looked)) = [EvBfExists bfk fp]
    | Ok false =>
        RedisBloomFilter.request_seen fpr h1 h2 req (self, w)
        = (result_map (fun _ => false) (fst inserted), (self, snd inserted)) /\
        List.filter is_bf_call (new_events w (snd inserted))
        = [EvBfExists bfk fp; EvBfInsert bfk fp]
    | Raise e =>
        RedisBloomFilter.request_seen fpr h1 h2 req (self, w)
        = (Raise e, (self, snd looked)) /\
        List.filter is_bf_call (new_events w (snd looked)) = [EvBfExists bfk fp]
    end.
Proof.
  intros request fpr h1 h2 self req w fp bfk looked inserted.
  destruct (bf_exists_calls h1 h2 (RedisBloomFilter.bf self) fp w)
    as (es & Ht & Hf). fold looked in Ht.
  assert (Hnew : List.filter is_bf_call (new_events w (snd looked))
                 = [EvBfExists bfk fp]).
  { rewrite (new_events_app _ _ _ Ht). simpl. by rewrite Hf. }
  unfold RedisBloomFilter.request_seen. unfold_monad. fold fp looked.
  destruct looked as [[[|]|e] w1] eqn:Hl; simpl in *.
  - done.
  - fold inserted.
    destruct (bf_insert_calls h1 h2 (RedisBloomFilter.bf self) fp w1)
      as (es' & Ht' & Hf'). fold inserted in Ht'.
    split.
    + destruct inserted as [[[]|e] w2]; done.
    + rewrite Ht, <- app_assoc in Ht'. rewrite (new_events_app _ _ _ Ht').
      simpl. rewrite List.filter_app, Hf. simpl. by rewrite Hf'.
  - done.
Qed.

(** *** MongoDupeFilter: lookup, insert, and the swallowed error *)

Lemma find_one_not_duplicate_key (db : Mongo.database) (coll fp : string)
    (w : world) :
  fst (Mongo.find_one db coll fp w) <> Raise DuplicateKeyError.
Proof.
  unfold Mongo.find_one, Mongo.with_server. unfold_monad.
  destruct (mongo_servers w !! Mongo.db_client db) as [dbs|]; simpl; [|done].
  destruct (Mongo.lookup_coll dbs (Mongo.db_name db) coll) as [c|]; simpl;
    [|done].
  destruct (decide (fp ∈ docs c)); done.
Qed.

Lemma mongo_request_seen_unfold {request : Type} (fpr : request -> string)
    (others : world -> world) (self : MongoDupeFilter.t) (req : request)
    (w : world) (d : string) :
  MongoDupeFilter.mongo_db self = PyStr d ->
  let db := Mongo.Database (MongoDupeFilter.mongo self) d in
  let coll := MongoDupeFilter.collection self in
  let looked := Mongo.find_one db coll (fpr req) w in
  let tried := Mongo.insert_one db coll (fpr req) (others (snd looked)) in
  MongoDupeFilter.request_seen_with fpr others req (self, w)
  = match fst looked with
    | Ok (Some _) => (Ok true, (self, snd looked))
    | Ok None =>
        (match fst tried with
         | Ok _ | Raise DuplicateKeyError => Ok false
         | Raise e => Raise e
         end, (self, snd tried))
    | Raise e => (Raise e, (self, snd looked))
    end.
Proof.
  intros Hd db coll looked tried.
  unfold MongoDupeFilter.request_seen_with. unfold_monad. rewrite Hd. simpl.
  fold db coll looked.
  destruct looked as [[[doc|]|e] w1]; simpl in *; try reflexivity.
  fold tried. destruct tried as [[[]|e] w2]; simpl; [reflexivity|].
  destruct e; reflexivity.
Qed.

(** C4: [MongoDupeFilter.request_seen] looks the fingerprint up first and
    answers true when a document is found, in the state the lookup left
    (nothing is inserted).  When none is found it attempts the insert, and
    when that insert raises [DuplicateKeyError], because another client
    ([others]) stored the fingerprint between the two round trips, the
    error is swallowed and the answer is still false.  In no case does
    [DuplicateKeyError] leave the method. *)
Theorem C4_mongo_lookup_then_insert_swallows_duplicate_key :
  forall (request : Type) (fpr : request -> string) (others : world -> world)
         (self : MongoDupeFilter.t) (req : request) (w : world) (d : string),
    MongoDupeFilter.mongo_db self = PyStr d ->
    let db := Mongo.Database (MongoDupeFilter.mongo self) d in
    let coll := MongoDupeFilter.collection self in
    let call := MongoDupeFilter.request_seen_with fpr others req (self, w) in
    (forall doc w1,
        Mongo.find_one db coll (fpr req) w = (Ok (Some doc), w1) ->
        call = (Ok true, (self, w1)))
    /\
    (forall w1 w2,
        Mongo.find_one db coll (fpr req) w = (Ok None, w1) ->
        Mongo.insert_one db coll (fpr req) (others w1)
        = (Raise DuplicateKeyError, w2) ->
        call = (Ok false, (self, w2)))
    /\
    (forall w1 w2,
        Mongo.find_one db coll (fpr req) w = (Ok None, w1) ->
        Mongo.insert_one db coll (fpr req) (others w1) = (Ok tt, w2) ->
        call = (Ok false, (self, w2)))
    /\
    fst call <> Raise DuplicateKeyError.
Proof.
  intros request fpr others self req w d Hd db coll call.
  pose proof (mongo_request_seen_unfold fpr others self req w d Hd) as Hu.
  simpl in Hu. fold db coll call in Hu.
  repeat split.
  - intros doc w1 Hf. rewrite Hu, Hf. reflexivity.
  - intros w1 w2 Hf Hi. rewrite Hu, Hf. simpl. rewrite Hi. reflexivity.
  - intros w1 w2 Hf Hi. rewrite Hu, Hf. simpl. rewrite Hi. reflexivity.
  - rewrite Hu.
    pose proof (find_one_not_duplicate_key db coll (fpr req) w) as Hn.
    destruct (Mongo.find_one db coll (fpr req) w) as [[[doc|]|e] w1];
      simpl in *; [done| |intros [= ->]; by apply Hn].
    destruct (Mongo.insert_one db coll (fpr req) (others w1)) as [[[]|e] w2];
      simpl; [done|]. destruct e; done.
Qed.

(** The race of section 4.4: the instance [mongo_job1] misses the lookup
    of "a", a second client on the same namespace ([rival]) then runs its
    whole [request_seen] for "a" and is told false, and the insert of the
    first hits the unique index; the first is told false as well. *)
Lemma C4_mongo_race_witness :
  fst (rival (snd (Mongo.find_one db_crawl "job1" "a" w_mongo_job1))) = Ok false /\
  fst (Mongo.insert_one db_crawl "job1" "a"
         (rival_world (snd (Mongo.find_one db_crawl "job1" "a" w_mongo_job1))))
  = Raise DuplicateKeyError /\
  fst (MongoDupeFilter.request_seen_with (fun r : string => r)
         rival_world "a" (mongo_job1, w_mongo_job1))
  = Ok false.
Proof.
  split; [reflexivity|]. split; [reflexivity|].
  rewrite (proj1 (proj2
    (C4_mongo_lookup_then_insert_swallows_duplicate_key string (fun r => r)
       rival_world mongo_job1 "a" w_mongo_job1 "crawl" eq_refl))
    (snd (Mongo.find_one db_crawl "job1" "a" w_mongo_job1))
    (snd (Mongo.insert_one db_crawl "job1" "a"
            (rival_world (snd (Mongo.find_one db_crawl "job1" "a" w_mongo_job1)))))
    eq_refl eq_refl).
  reflexivity.
Defined.

(** *** Which methods touch the instance *)

Lemma keeps_ret {I A} (a : A) : keeps_self (I := I) (ret a).
Proof. intros s. reflexivity. Qed.

Lemma keeps_raise {I A} (e : exn) : keeps_self (I := I) (A := A) (raise e).
Proof. intros s. reflexivity. Qed.

Lemma keeps_get_self {I} : keeps_self (I := I) get_self.
Proof. intros s. reflexivity. Qed.

Lemma keeps_lift {I A} (m : M world A) : keeps_self (I := I) (lift m).
Proof. intros s. unfold lift. destruct (m (snd s)). reflexivity. Qed.

Lemma keeps_bind {I A B} (m : M (I * world) A) (k : A -> M (I * world) B) :
  keeps_self m -> (forall a, keeps_self (k a)) -> keeps_self (bind m k).
Proof.
  intros Hm Hk s. unfold bind. specialize (Hm s).
  destruct (m s) as [[a|e] s1]; simpl in *; [|done].
  rewrite Hk. done.
Qed.

Lemma keeps_try_except {I A} (m : M (I * world) A) (h : exn -> M (I * world) A) :
  keeps_self m -> (forall e, keeps_self (h e)) -> keeps_self (try_except m h).
Proof.
  intros Hm Hh s. unfold try_except. specialize (Hm s).
  destruct (m s) as [[a|e] s1]; simpl in *; [done|].
  rewrite Hh. done.
Qed.

Create HintDb frame.
#[local] Hint Resolve keeps_ret keeps_raise keeps_get_self keeps_lift : frame.

Ltac frame_step :=
  first [ solve [auto with frame]
        | apply keeps_bind; [|intros ?]
        | apply keeps_try_except; [|intros ?]
        | match goal with
          | |- keeps_self (match ?x with _ => _ end) => destruct x
          end ].

Lemma mongo_request_seen_keeps {request : Type} (fpr : request -> string)
    (others : world -> world) (req : request) :
  keeps_self (MongoDupeFilter.request_seen_with fpr others req).
Proof. unfold MongoDupeFilter.request_seen_with. repeat frame_step. Qed.

Lemma mongo_clear_keeps : keeps_self MongoDupeFilter.clear.
Proof. unfold MongoDupeFilter.clear. repeat frame_step. Qed.

Lemma redis_request_seen_keeps {request : Type} (fpr : request -> string)
    (req : request) :
  keeps_self (RedisDupeFilter.request_seen fpr req).
Proof. unfold RedisDupeFilter.request_seen. repeat frame_step. Qed.

Lemma redis_clear_keeps : keeps_self RedisDupeFilter.clear.
Proof. unfold RedisDupeFilter.clear. repeat frame_step. Qed.

Lemma bloom_request_seen_keeps {request : Type} (fpr : request -> string)
    (h1 h2 : string -> Z) (req : request) :
  keeps_self (RedisBloomFilter.request_seen fpr h1 h2 req).
Proof. unfold RedisBloomFilter.request_seen. repeat frame_step. Qed.

Lemma bloom_clear_keeps : keeps_self RedisBloomFilter.clear.
Proof. unfold RedisBloomFilter.clear. repeat frame_step. Qed.

Ltac run_log :=
  unfold MongoDupeFilter.log, RedisDupeFilter.log, RedisBloomFilter.log,
    getattr_logger, MongoDupeFilter.class_logger, RedisDupeFilter.class_logger,
    RedisBloomFilter.class_logger, logger_debug, inc_value;
  unfold_monad.

(** C10: [request_seen] leaves every field of the instance as it was, in
    each of the three classes and also when it raises; so do [clear] and
    [close].  The one method that changes the instance is [log], and the
    one field it can change is [logdupes]: the store handle, the key or
    collection name, [debug] and, for the Bloom variant, [bit],
    [hash_number] and the Bloom filter object are the same before and
    after. *)
Theorem C10_only_log_changes_only_logdupes :
  forall (request : Type) (fpr : request -> string) (h1 h2 : string -> Z)
         (others : world -> world) (req : request) (spider reason : string),
    (keeps_self (MongoDupeFilter.request_seen_with fpr others req) /\
     keeps_self (RedisDupeFilter.request_seen fpr req) /\
     keeps_self (RedisBloomFilter.request_seen fpr h1 h2 req))
    /\
    (keeps_self MongoDupeFilter.clear /\
     keeps_self (MongoDupeFilter.close reason) /\
     keeps_self RedisDupeFilter.clear /\
     keeps_self (RedisDupeFilter.close reason) /\
     keeps_self RedisBloomFilter.clear /\
     keeps_self (RedisBloomFilter.close reason))
    /\
    ((forall s, mongo_same_but_logdupes (fst s)
                  (fst (snd (MongoDupeFilter.log req spider s)))) /\
     (forall s, redis_same_but_logdupes (fst s)
                  (fst (snd (RedisDupeFilter.log req spider s)))) /\
     (forall s, bloom_same_but_logdupes (fst s)
                  (fst (snd (RedisBloomFilter.log req spider s))))).
Proof.
  intros request fpr h1 h2 others req spider reason.
  split; [|split].
  - split; [apply mongo_request_seen_keeps|].
    split; [apply redis_request_seen_keeps | apply bloom_request_seen_keeps].
  - unfold MongoDupeFilter.close, RedisDupeFilter.close, RedisBloomFilter.close.
    repeat split;
      first [apply mongo_clear_keeps | apply redis_clear_keeps
            | apply bloom_clear_keeps].
  - split; [|split].
    + intros [[m db c dbg ld] w]. run_log. destruct dbg, ld; simpl; done.
    + intros [[srv k dbg ld] w]. run_log. destruct dbg, ld; simpl; done.
    + intros [[srv k dbg ld b hn bf] w]. run_log.
      destruct dbg, ld; simpl; done.
Qed.

(** C9: a call of [MongoDupeFilter.log] that has to log -- [debug] is set,
    or [debug] is unset and [logdupes] is still set -- stops at the lookup
    of [self.logger] with [AttributeError]: nothing is logged, [logdupes]
    keeps its value and the stats counter is not incremented (instance and
    world are exactly as before the call).  [RedisDupeFilter] and
    [RedisBloomFilter] bind a class-level logger; [MongoDupeFilter] binds
    none. *)
Theorem C9_mongo_log_attribute_error :
  forall (request : Type) (req : request) (spider : string)
         (self : MongoDupeFilter.t) (w : world),
    MongoDupeFilter.debug self = true \/ MongoDupeFilter.logdupes self = true ->
    MongoDupeFilter.class_logger = None /\
    RedisDupeFilter.class_logger = Some logger /\
    RedisBloomFilter.class_logger = Some logger /\
    MongoDupeFilter.log req spider (self, w) = (Raise AttributeError, (self, w)).
Proof.
  intros request req spider [m db c dbg ld] w H. simpl in H.
  repeat split. run_log.
  destruct dbg, ld; simpl; try reflexivity. destruct H; discriminate.
Qed.

(** Consequently a constructed [MongoDupeFilter] ([logdupes] set) never
    gets [logdupes] cleared, and none of its [log] calls counts. *)
Lemma mongo_log_never_counts {request : Type} (req : request)
    (reqs : list request) (spider : string) (self : MongoDupeFilter.t)
    (w : world) :
  MongoDupeFilter.logdupes self = true ->
  run_all (fun r => MongoDupeFilter.log r spider) (req :: reqs) (self, w)
  = (Raise AttributeError, (self, w)).
Proof.
  intros Hl. destruct self as [m db c dbg ld]. simpl in Hl. subst ld.
  simpl. unfold bind at 1. run_log. destruct dbg; reflexivity.
Qed.

Lemma C9_mongo_log_witness :
  MongoDupeFilter.class_logger = None /\
  RedisDupeFilter.class_logger = Some logger /\
  RedisBloomFilter.class_logger = Some logger /\
  MongoDupeFilter.log "a" "spider" (mongo_job1, w_mongo_job1)
  = (Raise AttributeError, (mongo_job1, w_mongo_job1)).
Proof.
  apply (C9_mongo_log_attribute_error string "a" "spider" mongo_job1 w_mongo_job1).
  right. reflexivity.
Defined.


(** *** clear and close *)

Lemma mongo_clear_raises (self : MongoDupeFilter.t) (w : world) :
  MongoDupeFilter.clear (self, w) = (Raise TypeError, (self, w)).
Proof. reflexivity. Qed.

(** What [clear] does where it reaches the store: the key is gone. *)
Lemma redis_clear_fresh (self : RedisDupeFilter.t) (w : world) :
  is_Some (redis_servers w !! RedisDupeFilter.server self) ->
  exists w',
    RedisDupeFilter.clear (self, w) = (Ok tt, (self, w')) /\
    redis_fresh w' (RedisDupeFilter.server self) (RedisDupeFilter.key self).
Proof.
  intros [db Hs]. unfold RedisDupeFilter.clear, Redis.delete, Redis.with_server,
    Redis.store, redis_fresh. unfold_monad. rewrite Hs.
  destruct (db !! RedisDupeFilter.key self) as [v|] eqn:Hk; simpl.
  - eexists. split; [reflexivity|]. simpl. eexists.
    rewrite lookup_insert_eq. split; [reflexivity|]. apply lookup_delete_eq.
  - eexists. split; [reflexivity|]. simpl. eauto.
Qed.

Lemma bloom_clear_fresh (self : RedisBloomFilter.t) (w : world) :
  is_Some (redis_servers w !! RedisBloomFilter.server self) ->
  exists w',
    RedisBloomFilter.clear (self, w) = (Ok tt, (self, w')) /\
    redis_fresh w' (RedisBloomFilter.server self) (RedisBloomFilter.key self).
Proof.
  intros [db Hs]. unfold RedisBloomFilter.clear, Redis.delete, Redis.with_server,
    Redis.store, redis_fresh. unfold_monad. rewrite Hs.
  destruct (db !! RedisBloomFilter.key self) as [v|] eqn:Hk; simpl.
  - eexists. split; [reflexivity|]. simpl. eexists.
    rewrite lookup_insert_eq. split; [reflexivity|]. apply lookup_delete_eq.
  - eexists. split; [reflexivity|]. simpl. eauto.
Qed.

(** The scenario of section 8 on [RedisDupeFilter]: namespace "job1",
    a, b, a, clear, a. *)
Example redis_scenario_job1 :
  let f := RedisDupeFilter.request_seen (fun r : string => r) in
  fst ((do x1 <- f "a"; do x2 <- f "b"; do x3 <- f "a";
        do _ <- RedisDupeFilter.clear; do x4 <- f "a";
        ret [x1; x2; x3; x4]) (job1, w_redis))
  = Ok [false; false; true; false].
Proof. reflexivity. Qed.

(** On any usable [MongoDupeFilter]: a call, then [clear], then the same
    request again is answered true. *)
Lemma mongo_clear_does_not_reset {request : Type} (fpr : request -> string)
    (self : MongoDupeFilter.t) (req : request) (w : world) :
  mongo_usable w self ->
  exists b s1,
    MongoDupeFilter.request_seen fpr req (self, w) = (Ok b, s1) /\
    MongoDupeFilter.clear s1 = (Raise TypeError, s1) /\
    fst (MongoDupeFilter.request_seen fpr req s1) = Ok true.
Proof.
  intros Hu.
  destruct (mongo_request_seen_step fpr self req w Hu) as (w1 & Hr & Hu1 & Hst).
  destruct (mongo_request_seen_step fpr self req w1 Hu1) as (w2 & Hr2 & _).
  eexists _, (self, w1). split; [exact Hr|]. split; [apply mongo_clear_raises|].
  rewrite Hr2. simpl. f_equal. apply bool_decide_eq_true_2. rewrite Hst.
  destruct (bool_decide_reflect (fpr req ∈ mongo_stored w self)) as [Hin|Hin];
    [exact Hin|].
  apply elem_of_app. right. by apply list_elem_of_singleton.
Qed.

(** C5, on [MongoDupeFilter]: after a first call for "a" (answer false),
    [clear] raises [TypeError] and removes nothing, and so does [close];
    the next call for "a" answers true, on the same instance and on an
    instance constructed anew on the same namespace.  The claim promises
    false in both places. *)
Theorem C5_mongo_clear_leaves_the_fingerprints :
  fst (MongoDupeFilter.request_seen (fun r : string => r) "a"
         (mongo_job1, w_mongo_job1)) = Ok false /\
  MongoDupeFilter.clear s_mongo_seen_a = (Raise TypeError, s_mongo_seen_a) /\
  MongoDupeFilter.close "finished" s_mongo_seen_a
  = (Raise TypeError, s_mongo_seen_a) /\
  fst (MongoDupeFilter.request_seen (fun r : string => r) "a" s_mongo_seen_a)
  = Ok true /\
  (exists w2,
      MongoDupeFilter.__init__ (PyStr "mongodb://db0") (PyStr "crawl") "job1"
        false (snd s_mongo_seen_a) = (Ok mongo_job1, w2) /\
      fst (MongoDupeFilter.request_seen (fun r : string => r) "a"
             (mongo_job1, w2)) = Ok true).
Proof.
  split; [reflexivity|]. split; [reflexivity|]. split; [reflexivity|].
  split; [reflexivity|].
  exists (snd (MongoDupeFilter.__init__ (PyStr "mongodb://db0") (PyStr "crawl")
                 "job1" false (snd s_mongo_seen_a))).
  split; reflexivity.
Qed.


(** *** log *)

(** The lifetime of an instance under [log], from what one call does. *)
Section LogLifetime.
Context {I A : Type} (logf : A -> M (I * world) unit).
Context (dbg_of ld_of : I -> bool) (next : I -> I) (name spider : string).
Hypothesis call : forall x self w,
  exists w',
    logf x (self, w) = (Ok tt, (next self, w')) /\
    trace w' = trace w ++ log_call_events name spider (dbg_of self) (ld_of self).
Hypothesis next_debug : forall self, dbg_of (next self) = dbg_of self.
Hypothesis next_logdupes : forall self,
  ld_of (next self) = dbg_of self && ld_of self.

Lemma log_lifetime_debug (xs : list A) : forall self w,
  dbg_of self = true ->
  exists s',
    run_all logf xs (self, w) = (Ok (repeat tt (length xs)), s') /\
    trace (snd s') = trace w ++ log_lifetime_events name spider true (length xs).
Proof.
  induction xs as [|x xs IH]; intros self w Hd; simpl.
  - exists (self, w). by rewrite app_nil_r.
  - destruct (call x self w) as (w1 & Hc & Ht).
    destruct (IH (next self) w1) as (s2 & Hr & Ht2).
    { by rewrite next_debug. }
    exists s2. unfold bind, ret. rewrite Hc, Hr. split; [done|].
    rewrite Ht2, Ht, Hd. unfold log_call_events. simpl.
    by rewrite <- app_assoc.
Qed.

Lemma log_lifetime_quiet (xs : list A) : forall self w,
  dbg_of self = false -> ld_of self = false ->
  exists s',
    run_all logf xs (self, w) = (Ok (repeat tt (length xs)), s') /\
    trace (snd s') = trace w ++ repeat (EvIncValue name spider) (length xs).
Proof.
  induction xs as [|x xs IH]; intros self w Hd Hl; simpl.
  - exists (self, w). by rewrite app_nil_r.
  - destruct (call x self w) as (w1 & Hc & Ht).
    destruct (IH (next self) w1) as (s2 & Hr & Ht2).
    { by rewrite next_debug. }
    { by rewrite next_logdupes, Hd. }
    exists s2. unfold bind, ret. rewrite Hc, Hr. split; [done|].
    rewrite Ht2, Ht, Hd, Hl. unfold log_call_events. simpl.
    by rewrite <- app_assoc.
Qed.

Lemma log_lifetime (xs : list A) (self : I) (w : world) :
  ld_of self = true ->
  exists s',
    run_all logf xs (self, w) = (Ok (repeat tt (length xs)), s') /\
    new_events w (snd s')
    = log_lifetime_events name spider (dbg_of self) (length xs).
Proof.
  intros Hl. destruct (dbg_of self) eqn:Hd.
  - destruct (log_lifetime_debug xs self w Hd) as (s' & Hr & Ht).
    exists s'. split; [done|]. by apply new_events_app.
  - destruct xs as [|x xs]; simpl.
    + exists (self, w). split; [done|]. apply new_events_app. simpl.
      by rewrite app_nil_r.
    + destruct (call x self w) as (w1 & Hc & Ht).
      destruct (log_lifetime_quiet xs (next self) w1) as (s2 & Hr & Ht2).
      { by rewrite next_debug. }
      { by rewrite next_logdupes, Hd. }
      exists s2. unfold bind, ret. rewrite Hc, Hr. split; [done|].
      apply new_events_app. rewrite Ht2, Ht, Hd, Hl. unfold log_call_events.
      simpl. by rewrite <- app_assoc.
Qed.
End LogLifetime.

Lemma redis_log_call {request : Type} (req : request) (spider : string)
    (self : RedisDupeFilter.t) (w : world) :
  exists w',
    RedisDupeFilter.log req spider (self, w) = (Ok tt, (redis_after_log self, w')) /\
    trace w' = trace w ++ log_call_events "dupefilter/filtered" spider
                            (RedisDupeFilter.debug self)
                            (RedisDupeFilter.logdupes self) /\
    stats w' = stats_incremented "dupefilter/filtered" (stats w).
Proof.
  destruct self as [srv k dbg ld]. run_log.
  unfold redis_after_log, log_call_events, stats_incremented.
  destruct dbg, ld; simpl; eexists; (split; [reflexivity|]); simpl;
    rewrite <- ?app_assoc; done.
Qed.

Lemma bloom_log_call {request : Type} (req : request) (spider : string)
    (self : RedisBloomFilter.t) (w : world) :
  exists w',
    RedisBloomFilter.log req spider (self, w) = (Ok tt, (bloom_after_log self, w')) /\
    trace w' = trace w ++ log_call_events "bloomfilter/filtered" spider
                            (RedisBloomFilter.debug self)
                            (RedisBloomFilter.logdupes self) /\
    stats w' = stats_incremented "bloomfilter/filtered" (stats w).
Proof.
  destruct self as [srv k dbg ld b hn bf]. run_log.
  unfold bloom_after_log, log_call_events, stats_incremented.
  destruct dbg, ld; simpl; eexists; (split; [reflexivity|]); simpl;
    rewrite <- ?app_assoc; done.
Qed.

(** The logging policy on [RedisDupeFilter] and [RedisBloomFilter], the
    two classes that bind a logger.  One call of [log] logs the duplicate
    when [debug] is set, and otherwise only while [logdupes] is still set,
    clearing it; it increments the stats counter exactly once.  Over the
    lifetime of a constructed instance, [n] calls log [n] duplicates with
    [debug] set and only the first one otherwise, and increment the
    counter [n] times.  The counter is "dupefilter/filtered" for
    [RedisDupeFilter] and "bloomfilter/filtered" for [RedisBloomFilter]. *)
Theorem log_policy_on_redis_filters :
  forall (request : Type) (req : request) (reqs : list request)
         (spider : string) (w : world),
    (forall self : RedisDupeFilter.t,
        exists w',
          RedisDupeFilter.log req spider (self, w)
          = (Ok tt, (redis_after_log self, w')) /\
          new_events w w'
          = log_call_events "dupefilter/filtered" spider
              (RedisDupeFilter.debug self) (RedisDupeFilter.logdupes self) /\
          stats w' = stats_incremented "dupefilter/filtered" (stats w))
    /\
    (forall self : RedisBloomFilter.t,
        exists w',
          RedisBloomFilter.log req spider (self, w)
          = (Ok tt, (bloom_after_log self, w')) /\
          new_events w w'
          = log_call_events "bloomfilter/filtered" spider
              (RedisBloomFilter.debug self) (RedisBloomFilter.logdupes self) /\
          stats w' = stats_incremented "bloomfilter/filtered" (stats w))
    /\
    (forall (srv k : string) (dbg : bool),
        exists s',
          run_all (fun r => RedisDupeFilter.log r spider) reqs
            (RedisDupeFilter.Build srv k dbg true, w)
          = (Ok (repeat tt (length reqs)), s') /\
          new_events w (snd s')
          = log_lifetime_events "dupefilter/filtered" spider dbg (length reqs))
    /\
    (forall (srv k : string) (dbg : bool) (b hn : Z),
        exists s',
          run_all (fun r => RedisBloomFilter.log r spider) reqs
            (RedisBloomFilter.Build srv k dbg true b hn
               (BloomFilter.Build srv k b hn), w)
          = (Ok (repeat tt (length reqs)), s') /\
          new_events w (snd s')
          = log_lifetime_events "bloomfilter/filtered" spider dbg (length reqs)).
Proof.
  intros request req reqs spider w. repeat apply conj.
  - intros self. destruct (redis_log_call req spider self w) as (w' & H1 & H2 & H3).
    exists w'. split; [done|]. split; [by apply new_events_app | done].
  - intros self. destruct (bloom_log_call req spider self w) as (w' & H1 & H2 & H3).
    exists w'. split; [done|]. split; [by apply new_events_app | done].
  - intros srv k dbg.
    apply (log_lifetime (fun r => RedisDupeFilter.log r spider)
             RedisDupeFilter.debug RedisDupeFilter.logdupes redis_after_log
             "dupefilter/filtered" spider).
    + intros x self w0.
      destruct (redis_log_call x spider self w0) as (w' & H1 & H2 & _). eauto.
    + intros [? ? [] ?]; reflexivity.
    + intros [? ? [] ?]; reflexivity.
    + reflexivity.
  - intros srv k dbg b hn.
    apply (log_lifetime (fun r => RedisBloomFilter.log r spider)
             RedisBloomFilter.debug RedisBloomFilter.logdupes bloom_after_log
             "bloomfilter/filtered" spider).
    + intros x self w0.
      destruct (bloom_log_call x spider self w0) as (w' & H1 & H2 & _). eauto.
    + intros [? ? [] ? ? ? ?]; reflexivity.
    + intros [? ? [] ? ? ? ?]; reflexivity.
    + reflexivity.
Qed.

(** C6, at the failing input: on a [MongoDupeFilter] the policy is not
    carried out.  With [debug] set, [log] raises [AttributeError] at the
    lookup of [self.logger]: the duplicate is not logged and the stats
    counter is not incremented (instance and world are untouched); the
    claim has it logged and counted once.  The same happens to the first
    duplicate of a constructed instance with [debug] unset, and, since
    [logdupes] is then never cleared, to every later one. *)
Theorem C6_mongo_log_neither_logs_nor_counts :
  MongoDupeFilter.debug mongo_dbg = true /\
  MongoDupeFilter.log "a" "spider" (mongo_dbg, w_mongo_job1)
  = (Raise AttributeError, (mongo_dbg, w_mongo_job1)) /\
  new_events w_mongo_job1
    (snd (snd (MongoDupeFilter.log "a" "spider" (mongo_dbg, w_mongo_job1)))) = [] /\
  stats (snd (snd (MongoDupeFilter.log "a" "spider" (mongo_dbg, w_mongo_job1))))
  = stats w_mongo_job1 /\
  run_all (fun r : string => MongoDupeFilter.log r "spider") ["a"; "a"]
    (mongo_job1, w_mongo_job1)
  = (Raise AttributeError, (mongo_job1, w_mongo_job1)).
Proof. repeat split. Qed.


(** *** Construction from settings *)

(** C7 as stated fails: the settings name no connection URI, and
    [from_settings] returns an instance all the same, bound to the
    client's default endpoint; the first use succeeds as well. *)
Lemma C7_counterexample :
  Settings.get settings_no_uri "MongoFilter_URI" PyNone = PyNone /\
  exists w',
    MongoDupeFilter.from_settings key_of_timestamp int_never_asked
      settings_no_uri w_localhost = (Ok mongo_default, w') /\
    fst (MongoDupeFilter.request_seen (fun r : string => r) "a"
           (mongo_default, w')) = Ok false.
Proof.
  split; [reflexivity|].
  exists (snd (MongoDupeFilter.from_settings key_of_timestamp int_never_asked
                 settings_no_uri w_localhost)).
  split; reflexivity.
Qed.

Lemma settings_get_insert_ne (settings : gmap string pyval)
    (k k' : string) (v dflt : pyval) :
  k <> k' ->
  Settings.get (<[k := v]> settings) k' dflt = Settings.get settings k' dflt.
Proof. intros Hne. unfold Settings.get. by rewrite lookup_insert_ne. Qed.

Lemma settings_get_insert_str (settings : gmap string pyval)
    (k x : string) (dflt : pyval) :
  Settings.get (<[k := PyStr x]> settings) k dflt = PyStr x.
Proof. unfold Settings.get. by rewrite lookup_insert_eq. Qed.

Lemma from_settings_default_uri (key_of : Z -> string)
    (int_of : string -> option Z) (settings : gmap string pyval) (w : world) :
  Settings.get settings "MongoFilter_URI" PyNone = PyNone ->
  MongoDupeFilter.from_settings key_of int_of settings w
  = MongoDupeFilter.from_settings key_of int_of
      (<["MongoFilter_URI" := PyStr Mongo.HOST]> settings) w.
Proof.
  intros Hu. unfold MongoDupeFilter.from_settings, Settings.getbool.
  rewrite (settings_get_insert_ne settings _ "MongoFilter_DB") by done.
  rewrite (settings_get_insert_ne settings _ "DUPEFILTER_DEBUG") by done.
  rewrite Hu, settings_get_insert_str. reflexivity.
Qed.

Lemma from_settings_no_db (key_of : Z -> string)
    (int_of : string -> option Z) (settings : gmap string pyval) (w : world) :
  Settings.get settings "MongoFilter_DB" PyNone = PyNone ->
  exists e, MongoDupeFilter.from_settings key_of int_of settings w = (Raise e, w).
Proof.
  intros Hd. unfold MongoDupeFilter.from_settings, Settings.getbool.
  rewrite Hd. unfold_mongo. unfold_monad.
  destruct (Settings.get settings "DUPEFILTER_DEBUG" (PyBool false))
    as [|b|z|str]; simpl; eauto.
  - destruct (Settings.get settings "MongoFilter_URI" PyNone); simpl; eauto.
  - destruct (Settings.get settings "MongoFilter_URI" PyNone); simpl; eauto.
  - destruct (int_of str); simpl.
    + destruct (Settings.get settings "MongoFilter_URI" PyNone); simpl; eauto.
    + repeat case_bool_decide; simpl; eauto;
        destruct (Settings.get settings "MongoFilter_URI" PyNone); simpl; eauto.
Qed.

(** C7, as the code has it: [from_settings] checks no setting itself.
    Settings without the database name ([settings.get("MongoFilter_DB")]
    is [None]) make construction raise on the spot, before any operation
    reaches a store.  Settings without the connection URI
    ([settings.get("MongoFilter_URI")] is [None]) are no error:
    construction goes on exactly as with the client's default endpoint. *)
Theorem C7_from_settings_missing_settings :
  forall (key_of : Z -> string) (int_of : string -> option Z)
         (settings : gmap string pyval) (w : world),
    (Settings.get settings "MongoFilter_DB" PyNone = PyNone ->
     exists e,
       MongoDupeFilter.from_settings key_of int_of settings w = (Raise e, w))
    /\
    (Settings.get settings "MongoFilter_URI" PyNone = PyNone ->
     MongoDupeFilter.from_settings key_of int_of settings w
     = MongoDupeFilter.from_settings key_of int_of
         (<["MongoFilter_URI" := PyStr Mongo.HOST]> settings) w).
Proof.
  intros key_of int_of settings w. split.
  - apply from_settings_no_db.
  - apply from_settings_default_uri.
Qed.

Lemma C7_from_settings_witness :
  (exists e,
      MongoDupeFilter.from_settings key_of_timestamp int_never_asked ∅ w_localhost
      = (Raise e, w_localhost))
  /\
  MongoDupeFilter.from_settings key_of_timestamp int_never_asked
    settings_no_uri w_localhost
  = MongoDupeFilter.from_settings key_of_timestamp int_never_asked
      (<["MongoFilter_URI" := PyStr Mongo.HOST]> settings_no_uri) w_localhost.
Proof.
  split.
  - apply (proj1 (C7_from_settings_missing_settings key_of_timestamp
                    int_never_asked ∅ w_localhost)).
    reflexivity.
  - apply (proj2 (C7_from_settings_missing_settings key_of_timestamp
                    int_never_asked settings_no_uri w_localhost)).
    reflexivity.
Defined.

(** *** The unique index *)

Lemma find_one_trace (db : Mongo.database) (coll fp : string) (w : world) :
  trace (snd (Mongo.find_one db coll fp w))
  = trace w ++ [EvFindOne (Mongo.db_client db) (Mongo.db_name db) coll fp].
Proof.
  unfold Mongo.find_one, Mongo.with_server. unfold_monad.
  destruct (mongo_servers w !! Mongo.db_client db) as [dbs|]; simpl; [|done].
  destruct (Mongo.lookup_coll dbs (Mongo.db_name db) coll) as [c|]; simpl;
    [|done].
  destruct (decide (fp ∈ docs c)); done.
Qed.

Lemma insert_one_trace (db : Mongo.database) (coll fp : string) (w : world) :
  trace (snd (Mongo.insert_one db coll fp w))
  = trace w ++ [EvInsertOne (Mongo.db_client db) (Mongo.db_name db) coll fp].
Proof.
  unfold Mongo.insert_one, Mongo.with_server, Mongo.store_coll. unfold_monad.
  destruct (mongo_servers w !! Mongo.db_client db) as [dbs|]; simpl; [|done].
  destruct (unique_fp _ && bool_decide _); done.
Qed.

Lemma mongo_request_seen_no_create_index {request : Type}
    (fpr : request -> string) (self : MongoDupeFilter.t) (req : request)
    (w : world) :
  List.filter is_create_index
    (new_events w (snd (snd (MongoDupeFilter.request_seen fpr req (self, w)))))
  = [].
Proof.
  destruct (MongoDupeFilter.mongo_db self) as [| | |d] eqn:Hd.
  1-3: unfold MongoDupeFilter.request_seen, MongoDupeFilter.request_seen_with;
    unfold_monad; rewrite Hd; simpl;
    rewrite (new_events_app w w []); [done | by rewrite app_nil_r].
  unfold MongoDupeFilter.request_seen.
  rewrite (mongo_request_seen_unfold fpr (fun w => w) self req w d Hd).
  set (db := Mongo.Database (MongoDupeFilter.mongo self) d).
  pose proof (find_one_trace db (MongoDupeFilter.collection self) (fpr req) w) as Hf.
  destruct (Mongo.find_one db _ (fpr req) w) as [[[doc|]|e] w1]; simpl in *.
  - by rewrite (new_events_app _ _ _ Hf).
  - pose proof (insert_one_trace db (MongoDupeFilter.collection self) (fpr req) w1)
      as Hi.
    rewrite Hf, <- app_assoc in Hi. by rewrite (new_events_app _ _ _ Hi).
  - by rewrite (new_events_app _ _ _ Hf).
Qed.

(** C8, at the failing input: [clear] does not drop the collection.  After
    construction, a first call for "a" and a [clear] (which raises
    [TypeError]), the collection still holds "a" under its unique index,
    and a second insert of "a" raises [DuplicateKeyError]; the claim has
    the index gone and the duplicate accepted. *)
Theorem C8_index_survives_clear :
  MongoDupeFilter.clear s_mongo_seen_a = (Raise TypeError, s_mongo_seen_a) /\
  mongo_coll (snd (snd (MongoDupeFilter.clear s_mongo_seen_a))) mongo_job1
  = Some (Collection ["a"] true) /\
  fst (Mongo.insert_one db_crawl "job1" "a"
         (snd (snd (MongoDupeFilter.clear s_mongo_seen_a))))
  = Raise DuplicateKeyError.
Proof. repeat split. Qed.

(** What does hold of the index: it is created in [__init__] and by no
    other method ([request_seen], [clear] and [close] never issue a
    create-index), so the constraint lasts as long as the collection does.
    Once the collection has been dropped from its database (by
    [Database.drop_collection], which [clear] fails to reach),
    [request_seen] brings it back without the index, and a second document
    with the same fingerprint goes in without [DuplicateKeyError]. *)
Lemma unique_index_only_from_init :
  forall (request : Type) (fpr : request -> string) (self : MongoDupeFilter.t)
         (req : request) (w : world) (d reason : string),
    MongoDupeFilter.mongo_db self = PyStr d ->
    is_Some (mongo_servers w !! MongoDupeFilter.mongo self) ->
    let db := Mongo.Database (MongoDupeFilter.mongo self) d in
    let coll := MongoDupeFilter.collection self in
    let dropped := snd (Mongo.drop_collection db coll w) in
    (List.filter is_create_index
       (new_events w (snd (snd (MongoDupeFilter.request_seen fpr req (self, w)))))
     = [] /\
     List.filter is_create_index
       (new_events w (snd (snd (MongoDupeFilter.clear (self, w))))) = [] /\
     List.filter is_create_index
       (new_events w (snd (snd (MongoDupeFilter.close reason (self, w))))) = [])
    /\
    (forall w1,
        MongoDupeFilter.__init__ (PyStr (MongoDupeFilter.mongo self)) (PyStr d)
          coll (MongoDupeFilter.debug self) w = (Ok self, w1) ->
        exists c, mongo_coll w1 self = Some c /\ unique_fp c = true)
    /\
    mongo_coll dropped self = None
    /\
    exists w1 w2,
      MongoDupeFilter.request_seen fpr req (self, dropped)
      = (Ok false, (self, w1)) /\
      mongo_coll w1 self = Some (Collection [fpr req] false) /\
      Mongo.insert_one db coll (fpr req) w1 = (Ok tt, w2) /\
      mongo_coll w2 self = Some (Collection [fpr req; fpr req] false).
Proof.
  intros request fpr self req w d reason Hd [dbs Hs] db coll dropped.
  split; [|split; [|split]].
  - split; [apply mongo_request_seen_no_create_index|].
    unfold MongoDupeFilter.close. rewrite mongo_clear_raises. simpl.
    rewrite (new_events_app w w []); [done | by rewrite app_nil_r].
  - intros w1 Hinit. apply (mongo_init_usable _ _ _ _ _ _ _ Hinit).
  - subst dropped db coll. destruct self as [m db c dbg ld]. simpl in *.
    subst db. unfold_mongo. unfold_monad. rewrite Hs. simpl.
    rewrite lookup_insert_eq. simpl. apply lookup_coll_delete.
  - subst dropped db coll. destruct self as [m db c dbg ld]. simpl in *.
    subst db. unfold_mongo. unfold_monad. rewrite Hs. simpl.
    rewrite !lookup_insert_eq. simpl. rewrite !lookup_coll_delete. simpl.
    rewrite !lookup_insert_eq. simpl. rewrite !lookup_coll_delete. simpl.
    eexists. eexists. split; [reflexivity|]. simpl.
    rewrite !lookup_insert_eq. simpl.
    rewrite !lookup_coll_insert. simpl. split; [reflexivity|].
    split; [reflexivity|]. simpl. rewrite lookup_insert_eq. simpl.
    rewrite lookup_coll_insert. reflexivity.
Qed.


(** * Further properties of the filters *)

(** ** RedisDupeFilter: clear, close and the store *)

Ltac unfold_redis :=
  unfold RedisDupeFilter.request_seen, RedisDupeFilter.clear,
    RedisDupeFilter.close, RedisBloomFilter.clear, RedisBloomFilter.close,
    Redis.sadd, Redis.delete, Redis.getbit, Redis.setbit, Redis.with_server,
    Redis.store, redis_members, redis_value, redis_fresh in *.

Lemma redis_fresh_members (w : world) (server key : string) :
  redis_fresh w server key -> redis_members w server key = Some ∅.
Proof.
  intros (db & Hs & Hk). unfold redis_members. rewrite Hs. simpl.
  by rewrite Hk.
Qed.

(** [clear], and [close] through it, reset a [RedisDupeFilter] whatever
    its key held before: on a reachable server both succeed and reach the
    same state, the next call for any request answers false, and the call
    after that true. *)
Theorem redis_clear_then_unseen :
  forall (request : Type) (fpr : request -> string) (self : RedisDupeFilter.t)
         (req : request) (reason : string) (w : world),
    is_Some (redis_servers w !! RedisDupeFilter.server self) ->
    exists w1 w2 w3,
      RedisDupeFilter.clear (self, w) = (Ok tt, (self, w1)) /\
      RedisDupeFilter.close reason (self, w) = (Ok tt, (self, w1)) /\
      RedisDupeFilter.request_seen fpr req (self, w1) = (Ok false, (self, w2)) /\
      RedisDupeFilter.request_seen fpr req (self, w2) = (Ok true, (self, w3)).
Proof.
  intros request fpr self req reason w Hs.
  destruct (redis_clear_fresh self w Hs) as (w1 & Hc & Hf).
  destruct (redis_request_seen_step fpr self req w1 ∅ (redis_fresh_members _ _ _ Hf))
    as (w2 & Hr & Hm).
  destruct (redis_request_seen_step fpr self req w2 _ Hm) as (w3 & Hr3 & _).
  exists w1, w2, w3. split; [exact Hc|]. split; [exact Hc|]. split.
  - rewrite Hr, (bool_decide_eq_false_2 (fpr req ∈ (∅ : gset string)));
      [reflexivity | apply not_elem_of_empty].
  - rewrite Hr3, (bool_decide_eq_true_2 (fpr req ∈ {[fpr req]} ∪ (∅ : gset string)));
      [reflexivity|]. apply elem_of_union_l, elem_of_singleton. reflexivity.
Qed.

Lemma redis_clear_then_unseen_witness :
  exists w1 w2 w3,
    RedisDupeFilter.clear (job1, w_redis_str) = (Ok tt, (job1, w1)) /\
    RedisDupeFilter.close "finished" (job1, w_redis_str) = (Ok tt, (job1, w1)) /\
    RedisDupeFilter.request_seen (fun r : string => r) "a" (job1, w1)
    = (Ok false, (job1, w2)) /\
    RedisDupeFilter.request_seen (fun r : string => r) "a" (job1, w2)
    = (Ok true, (job1, w3)).
Proof.
  apply (redis_clear_then_unseen string (fun r => r) job1 "a" "finished"
           w_redis_str).
  eexists. reflexivity.
Defined.

(** [clear] on a key that does not exist is no error and changes no store;
    a second [clear] right after a first changes nothing either. *)
Theorem redis_clear_idempotent :
  forall (self : RedisDupeFilter.t) (w : world),
    is_Some (redis_servers w !! RedisDupeFilter.server self) ->
    exists w1 w2,
      RedisDupeFilter.clear (self, w) = (Ok tt, (self, w1)) /\
      RedisDupeFilter.clear (self, w1) = (Ok tt, (self, w2)) /\
      redis_servers w2 = redis_servers w1 /\
      (redis_fresh w (RedisDupeFilter.server self) (RedisDupeFilter.key self) ->
       redis_servers w1 = redis_servers w).
Proof.
  intros self w [db Hs]. unfold_redis. unfold_monad. rewrite Hs.
  destruct (db !! RedisDupeFilter.key self) as [v|] eqn:Hk; simpl.
  - eexists _, _. split; [reflexivity|]. simpl. rewrite lookup_insert_eq.
    rewrite lookup_delete_eq. simpl. split; [reflexivity|]. split; [done|].
    intros (db' & Hs' & Hk'). congruence.
  - eexists _, _. split; [reflexivity|]. simpl. rewrite Hs, Hk. simpl. done.
Qed.

Lemma redis_clear_idempotent_witness :
  exists w1 w2,
    RedisDupeFilter.clear (job1, w_redis) = (Ok tt, (job1, w1)) /\
    RedisDupeFilter.clear (job1, w1) = (Ok tt, (job1, w2)) /\
    redis_servers w2 = redis_servers w1 /\
    (redis_fresh w_redis (RedisDupeFilter.server job1) (RedisDupeFilter.key job1) ->
     redis_servers w1 = redis_servers w_redis).
Proof.
  apply (redis_clear_idempotent job1 w_redis). eexists. reflexivity.
Defined.

(** ** RedisDupeFilter: other namespaces, failures of the store *)

(** [request_seen] and [clear] touch one key of one server: every other
    key, on this server or another, holds after the call what it held
    before, and so do the MongoDB servers and the stats; this also when
    the call raises. *)
Theorem redis_methods_touch_only_their_key :
  forall (request : Type) (fpr : request -> string) (self : RedisDupeFilter.t)
         (req : request) (w : world) (server' key' : string),
    (server', key') <> (RedisDupeFilter.server self, RedisDupeFilter.key self) ->
    let seen := snd (snd (RedisDupeFilter.request_seen fpr req (self, w))) in
    let cleared := snd (snd (RedisDupeFilter.clear (self, w))) in
    (redis_value seen server' key' = redis_value w server' key' /\
     mongo_servers seen = mongo_servers w /\ stats seen = stats w)
    /\
    (redis_value cleared server' key' = redis_value w server' key' /\
     mongo_servers cleared = mongo_servers w /\ stats cleared = stats w).
Proof.
  intros request fpr [srv k dbg ld] req w server' key' Hne. simpl in Hne.
  assert (Hins : forall (db : gmap string rvalue) (v : rvalue),
             redis_servers w !! srv = Some db ->
             (<[srv := <[k := v]> db]> (redis_servers w) !! server'
                ≫= fun db' => db' !! key')
             = (redis_servers w !! server' ≫= fun db' => db' !! key')).
  { intros db v Hs. destruct (decide (srv = server')) as [<-|Hsrv].
    - rewrite lookup_insert_eq, Hs. simpl. apply lookup_insert_ne. congruence.
    - by rewrite lookup_insert_ne. }
  assert (Hdel : forall (db : gmap string rvalue),
             redis_servers w !! srv = Some db ->
             (<[srv := base.delete k db]> (redis_servers w) !! server'
                ≫= fun db' => db' !! key')
             = (redis_servers w !! server' ≫= fun db' => db' !! key')).
  { intros db Hs. destruct (decide (srv = server')) as [<-|Hsrv].
    - rewrite lookup_insert_eq, Hs. simpl. apply lookup_delete_ne. congruence.
    - by rewrite lookup_insert_ne. }
  unfold_redis. unfold_monad.
  destruct (redis_servers w !! srv) as [db|] eqn:Hs; simpl; [|done].
  split.
  - destruct (db !! k) as [[s|n]|] eqn:Hk; simpl; [|done|].
    + destruct (decide (fpr req ∈ s)); simpl; [done|]. by rewrite Hins.
    + by rewrite Hins.
  - destruct (db !! k) as [v|] eqn:Hk; simpl; [|done]. by rewrite Hdel.
Qed.

Lemma redis_methods_touch_only_their_key_witness :
  (redis_value
     (snd (snd (RedisDupeFilter.request_seen (fun r : string => r) "c"
                  (RedisDupeFilter.Build "redis" "job2" false true, w_redis_ab))))
     "redis" "job1" = redis_value w_redis_ab "redis" "job1" /\
   mongo_servers
     (snd (snd (RedisDupeFilter.request_seen (fun r : string => r) "c"
                  (RedisDupeFilter.Build "redis" "job2" false true, w_redis_ab))))
   = mongo_servers w_redis_ab /\
   stats
     (snd (snd (RedisDupeFilter.request_seen (fun r : string => r) "c"
                  (RedisDupeFilter.Build "redis" "job2" false true, w_redis_ab))))
   = stats w_redis_ab)
  /\
  (redis_value
     (snd (snd (RedisDupeFilter.clear
                  (RedisDupeFilter.Build "redis" "job2" false true, w_redis_ab))))
     "redis" "job1" = redis_value w_redis_ab "redis" "job1" /\
   mongo_servers
     (snd (snd (RedisDupeFilter.clear
                  (RedisDupeFilter.Build "redis" "job2" false true, w_redis_ab))))
   = mongo_servers w_redis_ab /\
   stats
     (snd (snd (RedisDupeFilter.clear
                  (RedisDupeFilter.Build "redis" "job2" false true, w_redis_ab))))
   = stats w_redis_ab).
Proof.
  apply (redis_methods_touch_only_their_key string (fun r => r)
           (RedisDupeFilter.Build "redis" "job2" false true) "c" w_redis_ab
           "redis" "job1").
  discriminate.
Defined.

(** A failure of the store is never turned into an answer.  With no server
    behind the handle, [request_seen], [clear] and [close] raise
    [ConnectionError]; with a key that holds something else than a set,
    [request_seen] raises [ResponseError].  No store is changed. *)
Theorem redis_store_failures_propagate :
  forall (request : Type) (fpr : request -> string) (self : RedisDupeFilter.t)
         (req : request) (reason : string) (w : world),
    (redis_servers w !! RedisDupeFilter.server self = None ->
     exists w1 w2,
       RedisDupeFilter.request_seen fpr req (self, w)
       = (Raise ConnectionError, (self, w1)) /\
       RedisDupeFilter.clear (self, w) = (Raise ConnectionError, (self, w2)) /\
       RedisDupeFilter.close reason (self, w)
       = (Raise ConnectionError, (self, w2)) /\
       redis_servers w1 = redis_servers w /\ redis_servers w2 = redis_servers w)
    /\
    (forall n,
        redis_value w (RedisDupeFilter.server self) (RedisDupeFilter.key self)
        = Some (RStr n) ->
        exists w1,
          RedisDupeFilter.request_seen fpr req (self, w)
          = (Raise ResponseError, (self, w1)) /\
          redis_servers w1 = redis_servers w).
Proof.
  intros request fpr self req reason w. split.
  - intros Hs. unfold RedisDupeFilter.close. unfold_redis. unfold_monad.
    rewrite Hs. simpl. eexists _, _. repeat split.
  - intros n Hv. unfold_redis. unfold_monad.
    destruct (redis_servers w !! RedisDupeFilter.server self) as [db|];
      simpl in *; [|done].
    rewrite Hv. simpl. eexists. split; reflexivity.
Qed.

Lemma redis_store_failures_witness :
  (exists w1 w2,
      RedisDupeFilter.request_seen (fun r : string => r) "a" (job1, w_nowhere)
      = (Raise ConnectionError, (job1, w1)) /\
      RedisDupeFilter.clear (job1, w_nowhere)
      = (Raise ConnectionError, (job1, w2)) /\
      RedisDupeFilter.close "finished" (job1, w_nowhere)
      = (Raise ConnectionError, (job1, w2)) /\
      redis_servers w1 = redis_servers w_nowhere /\
      redis_servers w2 = redis_servers w_nowhere)
  /\
  (exists w1,
      RedisDupeFilter.request_seen (fun r : string => r) "a" (job1, w_redis_str)
      = (Raise ResponseError, (job1, w1)) /\
      redis_servers w1 = redis_servers w_redis_str).
Proof.
  split.
  - apply (proj1 (redis_store_failures_propagate string (fun r => r) job1 "a"
                    "finished" w_nowhere)).
    reflexivity.
  - apply (proj2 (redis_store_failures_propagate string (fun r => r) job1 "a"
                    "finished" w_redis_str) 5%N).
    reflexivity.
Defined.

(** ** Shared state: instances on the same namespace *)

Lemma redis_run_all {request : Type} (fpr : request -> string)
    (self : RedisDupeFilter.t) (pre : list request) : forall (w : world) s,
  redis_members w (RedisDupeFilter.server self) (RedisDupeFilter.key self) = Some s ->
  exists bs w',
    run_all (RedisDupeFilter.request_seen fpr) pre (self, w) = (Ok bs, (self, w')) /\
    redis_members w' (RedisDupeFilter.server self) (RedisDupeFilter.key self)
    = Some (list_to_set (map fpr pre) ∪ s).
Proof.
  induction pre as [|x pre IH]; intros w s Hm; simpl.
  - exists [], w. split; [done|]. by rewrite (left_id_L ∅ (∪)).
  - destruct (redis_request_seen_step fpr self x w s Hm) as (w1 & Hr & Hm1).
    destruct (IH w1 _ Hm1) as (bs & w2 & Hrun & Hm2).
    eexists _, w2. unfold bind, ret. rewrite Hr, Hrun. split; [reflexivity|].
    rewrite Hm2. f_equal.
    rewrite (assoc_L (∪)), (comm_L (∪) (list_to_set (map fpr pre))). done.
Qed.

(** The state of a [RedisDupeFilter] is the set under its key and nothing
    held by the instance: after any run of calls through one instance, a
    call through any instance with the same server and key (a restarted
    process, another crawler) answers true exactly for the fingerprints
    that the key held at the start or that the run carried. *)
Theorem redis_state_is_shared :
  forall (request : Type) (fpr : request -> string)
         (self other : RedisDupeFilter.t) (w : world) (s : gset string)
         (pre : list request) (req : request),
    RedisDupeFilter.server other = RedisDupeFilter.server self ->
    RedisDupeFilter.key other = RedisDupeFilter.key self ->
    redis_members w (RedisDupeFilter.server self) (RedisDupeFilter.key self)
    = Some s ->
    exists bs w1 w2,
      run_all (RedisDupeFilter.request_seen fpr) pre (self, w)
      = (Ok bs, (self, w1)) /\
      RedisDupeFilter.request_seen fpr req (other, w1)
      = (Ok (bool_decide (fpr req ∈ s \/ fpr req ∈ map fpr pre)), (other, w2)).
Proof.
  intros request fpr self other w s pre req Hsrv Hkey Hm.
  destruct (redis_run_all fpr self pre w s Hm) as (bs & w1 & Hrun & Hm1).
  rewrite <- Hsrv, <- Hkey in Hm1.
  destruct (redis_request_seen_step fpr other req w1 _ Hm1) as (w2 & Hr & _).
  exists bs, w1, w2. split; [exact Hrun|]. rewrite Hr. do 2 f_equal.
  apply bool_decide_ext. rewrite elem_of_union, elem_of_list_to_set. tauto.
Qed.

Lemma redis_state_is_shared_witness :
  exists bs w1 w2,
    run_all (RedisDupeFilter.request_seen (fun r : string => r)) ["c"]
      (job1, w_redis_ab) = (Ok bs, (job1, w1)) /\
    RedisDupeFilter.request_seen (fun r : string => r) "a" (job1_debug, w1)
    = (Ok (bool_decide ("a" ∈ ({["a"; "b"]} : gset string)
                        \/ "a" ∈ map (fun r : string => r) ["c"])),
       (job1_debug, w2)).
Proof.
  apply (redis_state_is_shared string (fun r => r) job1 job1_debug w_redis_ab
           {["a"; "b"]} ["c"] "a"); reflexivity.
Defined.

Lemma mongo_stored_same_namespace (a b : MongoDupeFilter.t) (w : world) :
  mongo_same_namespace a b -> mongo_stored w a = mongo_stored w b.
Proof.
  intros (H1 & H2 & H3). unfold mongo_stored, mongo_coll.
  by rewrite H1, H2, H3.
Qed.

Lemma mongo_usable_same_namespace (a b : MongoDupeFilter.t) (w : world) :
  mongo_same_namespace a b -> mongo_usable w a -> mongo_usable w b.
Proof.
  intros (H1 & H2 & H3). unfold mongo_usable. by rewrite H1, H2.
Qed.

Lemma mongo_run_all {request : Type} (fpr : request -> string)
    (self : MongoDupeFilter.t) (pre : list request) : forall (w : world),
  mongo_usable w self ->
  exists bs w',
    run_all (MongoDupeFilter.request_seen fpr) pre (self, w) = (Ok bs, (self, w')) /\
    mongo_usable w' self /\
    (forall x, x ∈ mongo_stored w' self
               <-> x ∈ mongo_stored w self \/ x ∈ map fpr pre) /\
    (NoDup (mongo_stored w self) -> NoDup (mongo_stored w' self)) /\
    (exists added, mongo_stored w' self = mongo_stored w self ++ added).
Proof.
  induction pre as [|x pre IH]; intros w Hu; simpl.
  - exists [], w. split; [done|]. split; [done|]. split.
    + intros y. rewrite elem_of_nil. tauto.
    + split; [done|]. exists []. by rewrite app_nil_r.
  - destruct (mongo_request_seen_step fpr self x w Hu) as (w1 & Hr & Hu1 & Hst).
    destruct (IH w1 Hu1) as (bs & w2 & Hrun & Hu2 & Hmem & Hnd & (added & Hadd)).
    eexists _, w2. unfold bind, ret. rewrite Hr, Hrun.
    split; [reflexivity|]. split; [done|].
    destruct (bool_decide_reflect (fpr x ∈ mongo_stored w self)) as [Hin|Hin];
      rewrite Hst in *.
    + split; [|split; [done | by exists added]].
      intros y. rewrite Hmem, elem_of_cons. split; [tauto|].
      intros [?|[->|?]]; auto.
    + split; [|split].
      * intros y. rewrite Hmem, elem_of_app, list_elem_of_singleton, elem_of_cons.
        tauto.
      * intros Hn. apply Hnd. apply NoDup_app. split; [done|]. split.
        -- intros y Hy Hy'. apply list_elem_of_singleton in Hy'. by subst y.
        -- apply NoDup_singleton.
      * exists ([fpr x] ++ added). by rewrite Hadd, <- app_assoc.
Qed.

(** The state of a [MongoDupeFilter] is its collection: after any run of
    calls through one usable instance, a call through any instance on the
    same client, database and collection answers true exactly for the
    fingerprints that the collection held at the start or that the run
    carried. *)
Theorem mongo_state_is_shared :
  forall (request : Type) (fpr : request -> string)
         (self other : MongoDupeFilter.t) (w : world)
         (pre : list request) (req : request),
    mongo_same_namespace self other ->
    mongo_usable w self ->
    exists bs w1 w2,
      run_all (MongoDupeFilter.request_seen fpr) pre (self, w)
      = (Ok bs, (self, w1)) /\
      MongoDupeFilter.request_seen fpr req (other, w1)
      = (Ok (bool_decide (fpr req ∈ mongo_stored w self
                          \/ fpr req ∈ map fpr pre)), (other, w2)).
Proof.
  intros request fpr self other w pre req Hsame Hu.
  destruct (mongo_run_all fpr self pre w Hu) as (bs & w1 & Hrun & Hu1 & Hmem & _).
  destruct (mongo_request_seen_step fpr other req w1
              (mongo_usable_same_namespace _ _ _ Hsame Hu1)) as (w2 & Hr & _).
  exists bs, w1, w2. split; [exact Hrun|]. rewrite Hr. do 2 f_equal.
  apply bool_decide_ext.
  rewrite <- (mongo_stored_same_namespace self other w1 Hsame). apply Hmem.
Qed.

Lemma mongo_state_is_shared_witness :
  exists bs w1 w2,
    run_all (MongoDupeFilter.request_seen (fun r : string => r)) ["a"; "b"]
      (mongo_job1, w_mongo_job1) = (Ok bs, (mongo_job1, w1)) /\
    MongoDupeFilter.request_seen (fun r : string => r) "b" (mongo_job1_debug, w1)
    = (Ok (bool_decide ("b" ∈ mongo_stored w_mongo_job1 mongo_job1
                        \/ "b" ∈ map (fun r : string => r) ["a"; "b"])),
       (mongo_job1_debug, w2)).
Proof.
  apply (mongo_state_is_shared string (fun r => r) mongo_job1 mongo_job1_debug
           w_mongo_job1 ["a"; "b"] "b").
  - repeat split.
  - split; [by exists "crawl" | eexists; reflexivity].
Defined.

(** Run one call after the other, [request_seen] never stores a
    fingerprint twice, with or without the unique index: a collection
    without duplicates stays without duplicates, and documents are only
    ever appended. *)
Theorem mongo_request_seen_keeps_collection_duplicate_free :
  forall (request : Type) (fpr : request -> string) (self : MongoDupeFilter.t)
         (w : world) (reqs : list request),
    mongo_usable w self ->
    NoDup (mongo_stored w self) ->
    exists bs w' added,
      run_all (MongoDupeFilter.request_seen fpr) reqs (self, w)
      = (Ok bs, (self, w')) /\
      mongo_stored w' self = mongo_stored w self ++ added /\
      NoDup (mongo_stored w' self).
Proof.
  intros request fpr self w reqs Hu Hn.
  destruct (mongo_run_all fpr self reqs w Hu)
    as (bs & w' & Hrun & _ & _ & Hnd & (added & Hadd)).
  exists bs, w', added. auto.
Qed.

Lemma mongo_request_seen_duplicate_free_witness :
  exists bs w' added,
    run_all (MongoDupeFilter.request_seen (fun r : string => r)) ["a"; "b"; "a"]
      (mongo_job1, w_mongo_job1) = (Ok bs, (mongo_job1, w')) /\
    mongo_stored w' mongo_job1 = mongo_stored w_mongo_job1 mongo_job1 ++ added /\
    NoDup (mongo_stored w' mongo_job1).
Proof.
  apply (mongo_request_seen_keeps_collection_duplicate_free string (fun r => r)
           mongo_job1 w_mongo_job1 ["a"; "b"; "a"]).
  - split; [by exists "crawl" | eexists; reflexivity].
  - apply NoDup_nil_2.
Defined.

(** ** MongoDupeFilter: failures of the store, other collections *)

(** A failure of the store is never turned into an answer.  With no server
    behind the client [request_seen] raises [ServerSelectionTimeoutError];
    with a database name that is no string it raises [TypeError] before
    any round trip; and when the insert after a missed lookup raises
    anything but [DuplicateKeyError], that error leaves the method. *)
Theorem mongo_store_failures_propagate :
  forall (request : Type) (fpr : request -> string) (others : world -> world)
         (self : MongoDupeFilter.t) (req : request) (w : world),
    (forall d,
        MongoDupeFilter.mongo_db self = PyStr d ->
        mongo_servers w !! MongoDupeFilter.mongo self = None ->
        exists w1,
          MongoDupeFilter.request_seen_with fpr others req (self, w)
          = (Raise ServerSelectionTimeoutError, (self, w1)) /\
          mongo_servers w1 = mongo_servers w)
    /\
    ((forall d, MongoDupeFilter.mongo_db self <> PyStr d) ->
     MongoDupeFilter.request_seen_with fpr others req (self, w)
     = (Raise TypeError, (self, w)))
    /\
    (forall d e w1 w2,
        MongoDupeFilter.mongo_db self = PyStr d ->
        Mongo.find_one (Mongo.Database (MongoDupeFilter.mongo self) d)
          (MongoDupeFilter.collection self) (fpr req) w = (Ok None, w1) ->
        Mongo.insert_one (Mongo.Database (MongoDupeFilter.mongo self) d)
          (MongoDupeFilter.collection self) (fpr req) (others w1)
        = (Raise e, w2) ->
        e <> DuplicateKeyError ->
        MongoDupeFilter.request_seen_with fpr others req (self, w)
        = (Raise e, (self, w2))).
Proof.
  intros request fpr others self req w. split; [|split].
  - intros d Hd Hs.
    rewrite (mongo_request_seen_unfold fpr others self req w d Hd).
    unfold Mongo.find_one, Mongo.with_server. unfold_monad. rewrite Hs. simpl.
    eexists. split; reflexivity.
  - intros Hd. unfold MongoDupeFilter.request_seen_with. unfold_monad.
    destruct (MongoDupeFilter.mongo_db self) as [| | |d]; simpl; try reflexivity.
    by destruct (Hd d).
  - intros d e w1 w2 Hd Hf Hi He.
    rewrite (mongo_request_seen_unfold fpr others self req w d Hd).
    rewrite Hf. simpl. rewrite Hi. simpl. by destruct e.
Qed.

Lemma mongo_store_failures_witness :
  (exists w1,
      MongoDupeFilter.request_seen_with (fun r : string => r) (fun w => w) "a"
        (mongo_job1, w_nowhere)
      = (Raise ServerSelectionTimeoutError, (mongo_job1, w1)) /\
      mongo_servers w1 = mongo_servers w_nowhere)
  /\
  MongoDupeFilter.request_seen_with (fun r : string => r) (fun w => w) "a"
    (mongo_no_db, w_mongo_job1)
  = (Raise TypeError, (mongo_no_db, w_mongo_job1))
  /\
  MongoDupeFilter.request_seen_with (fun r : string => r)
    (set_mongo ∅) "a" (mongo_job1, w_mongo_job1)
  = (Raise ServerSelectionTimeoutError,
     (mongo_job1,
      snd (Mongo.insert_one db_crawl "job1" "a"
             (set_mongo ∅ (snd (Mongo.find_one db_crawl "job1" "a" w_mongo_job1)))))).
Proof.
  split; [|split].
  - apply (proj1 (mongo_store_failures_propagate string (fun r => r) (fun w => w)
                    mongo_job1 "a" w_nowhere) "crawl"); reflexivity.
  - apply (proj1 (proj2 (mongo_store_failures_propagate string (fun r => r)
                           (fun w => w) mongo_no_db "a" w_mongo_job1))).
    intros d. discriminate.
  - apply (proj2 (proj2 (mongo_store_failures_propagate string (fun r => r)
                           (set_mongo ∅) mongo_job1 "a" w_mongo_job1))
             "crawl" ServerSelectionTimeoutError
             (snd (Mongo.find_one db_crawl "job1" "a" w_mongo_job1)));
      [reflexivity | reflexivity | reflexivity | discriminate].
Defined.

Lemma mongo_value_store (w : world) (db : Mongo.database) (coll : string)
    (c : mongo_collection) (client' d' coll' : string) :
  (client', d', coll') <> (Mongo.db_client db, Mongo.db_name db, coll) ->
  mongo_value (snd (Mongo.store_coll db coll c w)) client' d' coll'
  = mongo_value w client' d' coll'.
Proof.
  intros Hne. destruct db as [client d]. unfold mongo_value, Mongo.store_coll.
  simpl in *.
  destruct (decide (client = client')) as [<-|Hc].
  - rewrite lookup_insert_eq. simpl.
    destruct (mongo_servers w !! client) as [dbs|] eqn:Hs; simpl.
    + unfold Mongo.lookup_coll.
      destruct (decide (d = d')) as [<-|Hd].
      * rewrite lookup_insert_eq. simpl.
        rewrite lookup_insert_ne by congruence.
        destruct (dbs !! d); done.
      * by rewrite lookup_insert_ne.
    + unfold Mongo.lookup_coll.
      destruct (decide (d = d')) as [<-|Hd].
      * rewrite lookup_insert_eq. simpl.
        rewrite lookup_insert_ne by congruence. done.
      * by rewrite lookup_insert_ne.
  - by rewrite lookup_insert_ne.
Qed.

(** [request_seen] touches one collection: every other collection, of this
    database or another, on this server or another, is after the call what
    it was before, and so are the Redis servers and the stats; this also
    when the call raises. *)
Theorem mongo_request_seen_touches_only_its_collection :
  forall (request : Type) (fpr : request -> string) (self : MongoDupeFilter.t)
         (req : request) (w : world) (d client' d' coll' : string),
    MongoDupeFilter.mongo_db self = PyStr d ->
    (client', d', coll')
    <> (MongoDupeFilter.mongo self, d, MongoDupeFilter.collection self) ->
    let w' := snd (snd (MongoDupeFilter.request_seen fpr req (self, w))) in
    mongo_value w' client' d' coll' = mongo_value w client' d' coll' /\
    redis_servers w' = redis_servers w /\
    stats w' = stats w.
Proof.
  intros request fpr self req w d client' d' coll' Hd Hne w'. subst w'.
  unfold MongoDupeFilter.request_seen.
  rewrite (mongo_request_seen_unfold fpr (fun w => w) self req w d Hd).
  set (db := Mongo.Database (MongoDupeFilter.mongo self) d).
  assert (Hfind : forall fp,
             mongo_servers (snd (Mongo.find_one db (MongoDupeFilter.collection self) fp w))
             = mongo_servers w /\
             redis_servers (snd (Mongo.find_one db (MongoDupeFilter.collection self) fp w))
             = redis_servers w /\
             stats (snd (Mongo.find_one db (MongoDupeFilter.collection self) fp w))
             = stats w).
  { intros fp. unfold Mongo.find_one, Mongo.with_server. unfold_monad.
    destruct (mongo_servers w !! MongoDupeFilter.mongo self) as [dbs|]; simpl;
      [|done].
    destruct (Mongo.lookup_coll dbs d (MongoDupeFilter.collection self)) as [c|];
      simpl; [|done].
    destruct (decide (fp ∈ docs c)); done. }
  destruct (Hfind (fpr req)) as (Hm & Hr & Hst).
  destruct (Mongo.find_one db (MongoDupeFilter.collection self) (fpr req) w)
    as [[[doc|]|e] w1] eqn:Hf; simpl in *.
  - unfold mongo_value. by rewrite Hm.
  - unfold Mongo.insert_one, Mongo.with_server. unfold_monad.
    destruct (mongo_servers w1 !! MongoDupeFilter.mongo self) as [dbs|] eqn:Hs;
      simpl.
    + destruct (unique_fp _ && bool_decide _); simpl.
      * unfold mongo_value in *. simpl. by rewrite Hm.
      * split; [|done].
        match goal with
        | |- mongo_value (set_mongo ?m ?w0) _ _ _ = _ =>
            change (set_mongo m w0)
              with (snd (Mongo.store_coll db (MongoDupeFilter.collection self)
                           (Collection
                              (docs (default (Collection [] false)
                                       (Mongo.lookup_coll dbs d
                                          (MongoDupeFilter.collection self)))
                               ++ [fpr req])
                              (unique_fp (default (Collection [] false)
                                            (Mongo.lookup_coll dbs d
                                               (MongoDupeFilter.collection self)))))
                           w0))
        end.
        rewrite mongo_value_store by exact Hne.
        unfold mongo_value. simpl. by rewrite Hm.
    + unfold mongo_value in *. simpl. by rewrite Hm.
  - unfold mongo_value. by rewrite Hm.
Qed.

Lemma mongo_request_seen_touches_only_its_collection_witness :
  mongo_value
    (snd (snd (MongoDupeFilter.request_seen (fun r : string => r) "b"
                 (MongoDupeFilter.Build "mongodb://db0" (PyStr "crawl") "job2"
                    false true, snd s_mongo_seen_a))))
    "mongodb://db0" "crawl" "job1"
  = mongo_value (snd s_mongo_seen_a) "mongodb://db0" "crawl" "job1" /\
  redis_servers
    (snd (snd (MongoDupeFilter.request_seen (fun r : string => r) "b"
                 (MongoDupeFilter.Build "mongodb://db0" (PyStr "crawl") "job2"
                    false true, snd s_mongo_seen_a))))
  = redis_servers (snd s_mongo_seen_a) /\
  stats
    (snd (snd (MongoDupeFilter.request_seen (fun r : string => r) "b"
                 (MongoDupeFilter.Build "mongodb://db0" (PyStr "crawl") "job2"
                    false true, snd s_mongo_seen_a))))
  = stats (snd s_mongo_seen_a).
Proof.
  apply (mongo_request_seen_touches_only_its_collection string (fun r => r)
           (MongoDupeFilter.Build "mongodb://db0" (PyStr "crawl") "job2" false true)
           "b" (snd s_mongo_seen_a) "crawl" "mongodb://db0" "crawl" "job1").
  - reflexivity.
  - discriminate.
Defined.

(** ** MongoDupeFilter: construction *)

Lemma mongo_init_post :
  forall (uri db : pyval) (coll : string) (dbg : bool) (w0 w : world)
         (self : MongoDupeFilter.t),
    MongoDupeFilter.__init__ uri db coll dbg w0 = (Ok self, w) ->
    (MongoDupeFilter.mongo_db self = db /\
     MongoDupeFilter.collection self = coll /\
     MongoDupeFilter.debug self = dbg /\
     MongoDupeFilter.logdupes self = true /\
     (uri = PyNone /\ MongoDupeFilter.mongo self = Mongo.HOST \/
      uri = PyStr (MongoDupeFilter.mongo self)))
    /\
    (mongo_coll w self = Some (Collection (mongo_stored w0 self) true) /\
     NoDup (mongo_stored w0 self) /\
     redis_servers w = redis_servers w0 /\ stats w = stats w0)
    /\
    (exists w',
        MongoDupeFilter.__init__ uri db coll dbg w = (Ok self, w') /\
        mongo_servers w' = mongo_servers w).
Proof.
  intros uri db coll dbg w0 w self.
  unfold_mongo. unfold_monad.
  assert (Hgen : forall client d,
    (let (r, s') :=
       match mongo_servers w0 !! client with
       | Some dbs =>
           (if decide (NoDup (docs (default (Collection [] false)
                                      (Mongo.lookup_coll dbs d coll))))
            then fun w1 : world =>
              (Ok tt,
               set_mongo
                 (<[client := <[d := <[coll :=
                      Collection (docs (default (Collection [] false)
                                          (Mongo.lookup_coll dbs d coll))) true]>
                      (default ∅ (default ∅ (mongo_servers w1 !! client) !! d))]>
                    (default ∅ (mongo_servers w1 !! client))]> (mongo_servers w1))
                 w1)
            else fun s : world => (Raise DuplicateKeyError, s))
             (set_trace (trace w0 ++ [EvCreateIndex client d coll]) w0)
       | None =>
           (Raise ServerSelectionTimeoutError,
            set_trace (trace w0 ++ [EvCreateIndex client d coll]) w0)
       end in
     match r with
     | Ok _ => (Ok (MongoDupeFilter.Build client (PyStr d) coll dbg true), s')
     | Raise e => (Raise e, s')
     end) = (Ok self, w) ->
    self = MongoDupeFilter.Build client (PyStr d) coll dbg true /\
    exists dbs,
      mongo_servers w0 !! client = Some dbs /\
      NoDup (docs (default (Collection [] false) (Mongo.lookup_coll dbs d coll))) /\
      w = set_mongo
            (<[client := <[d := <[coll :=
                 Collection (docs (default (Collection [] false)
                                     (Mongo.lookup_coll dbs d coll))) true]>
                 (default ∅ (dbs !! d))]> dbs]> (mongo_servers w0))
            (set_trace (trace w0 ++ [EvCreateIndex client d coll]) w0)).
  { intros client d.
    destruct (mongo_servers w0 !! client) as [dbs|] eqn:Hs; simpl; [|done].
    destruct (decide (NoDup _)) as [Hn|Hn]; simpl; [|done].
    rewrite Hs. simpl. intros [= <- <-]. split; [done|]. exists dbs. done. }
  assert (Hpost : forall client d,
    self = MongoDupeFilter.Build client (PyStr d) coll dbg true ->
    (exists dbs,
      mongo_servers w0 !! client = Some dbs /\
      NoDup (docs (default (Collection [] false) (Mongo.lookup_coll dbs d coll))) /\
      w = set_mongo
            (<[client := <[d := <[coll :=
                 Collection (docs (default (Collection [] false)
                                     (Mongo.lookup_coll dbs d coll))) true]>
                 (default ∅ (dbs !! d))]> dbs]> (mongo_servers w0))
            (set_trace (trace w0 ++ [EvCreateIndex client d coll]) w0)) ->
    (mongo_servers w !! client
       ≫= (fun dbs => Mongo.lookup_coll dbs d coll)
     = Some (Collection
               (from_option docs []
                  (mongo_servers w0 !! client
                     ≫= fun dbs => Mongo.lookup_coll dbs d coll)) true) /\
     NoDup (from_option docs []
              (mongo_servers w0 !! client
                 ≫= fun dbs => Mongo.lookup_coll dbs d coll)) /\
     redis_servers w = redis_servers w0 /\ stats w = stats w0) /\
    exists w',
      (let (r, s') :=
         match mongo_servers w !! client with
         | Some dbs =>
             (if decide (NoDup (docs (default (Collection [] false)
                                        (Mongo.lookup_coll dbs d coll))))
              then fun w1 : world =>
                (Ok tt,
                 set_mongo
                   (<[client := <[d := <[coll :=
                        Collection (docs (default (Collection [] false)
                                            (Mongo.lookup_coll dbs d coll))) true]>
                        (default ∅ (default ∅ (mongo_servers w1 !! client) !! d))]>
                      (default ∅ (mongo_servers w1 !! client))]> (mongo_servers w1))
                   w1)
              else fun s : world => (Raise DuplicateKeyError, s))
               (set_trace (trace w ++ [EvCreateIndex client d coll]) w)
         | None =>
             (Raise ServerSelectionTimeoutError,
              set_trace (trace w ++ [EvCreateIndex client d coll]) w)
         end in
       match r with
       | Ok _ => (Ok (MongoDupeFilter.Build client (PyStr d) coll dbg true), s')
       | Raise e => (Raise e, s')
       end) = (Ok self, w') /\
      mongo_servers w' = mongo_servers w).
  { intros client d -> (dbs & Hs & Hn & ->). simpl.
    rewrite lookup_insert_eq. simpl. rewrite lookup_coll_insert. simpl.
    rewrite Hs. simpl.
    assert (Hdocs : docs (default (Collection [] false)
                            (Mongo.lookup_coll dbs d coll))
                    = from_option docs [] (Mongo.lookup_coll dbs d coll)).
    { by destruct (Mongo.lookup_coll dbs d coll). }
    rewrite <- Hdocs. split; [done|].
    destruct (decide (NoDup _)) as [Hn'|Hn']; [|done]. simpl.
    eexists. split; [reflexivity|]. simpl.
    rewrite !lookup_insert_eq. simpl. rewrite !lookup_insert_eq. simpl.
    rewrite !insert_insert_eq. done. }
  destruct uri as [| |z|uri]; simpl; try done;
    destruct db as [| |z'|d]; simpl; try done.
  - intros H. destruct (Hgen Mongo.HOST d H) as (Hself & Hex).
    destruct (Hpost Mongo.HOST d Hself Hex) as (Hp & Hi). subst self. simpl.
    split; [|split; [exact Hp | exact Hi]].
    repeat split. by left.
  - intros H. destruct (Hgen uri d H) as (Hself & Hex).
    destruct (Hpost uri d Hself Hex) as (Hp & Hi). subst self. simpl.
    split; [|split; [exact Hp | exact Hi]].
    repeat split. by right.
Qed.



(** When [__init__] does not return an instance, no store has been
    changed.  It raises [ServerSelectionTimeoutError] when no server is
    behind the client, and [TypeError], before any round trip, when the
    database name is no string. *)
Theorem mongo_init_failures :
  forall (uri db : pyval) (coll : string) (dbg : bool) (w0 : world),
    (forall e w,
        MongoDupeFilter.__init__ uri db coll dbg w0 = (Raise e, w) ->
        mongo_servers w = mongo_servers w0 /\
        redis_servers w = redis_servers w0 /\ stats w = stats w0)
    /\
    (forall client d,
        Mongo.MongoClient uri w0 = (Ok client, w0) ->
        db = PyStr d ->
        mongo_servers w0 !! client = None ->
        exists w,
          MongoDupeFilter.__init__ uri db coll dbg w0
          = (Raise ServerSelectionTimeoutError, w))
    /\
    ((forall d, db <> PyStr d) ->
     exists e, MongoDupeFilter.__init__ uri db coll dbg w0 = (Raise e, w0)).
Proof.
  intros uri db coll dbg w0. split; [|split].
  - intros e w. unfold_mongo. unfold_monad.
    destruct uri as [| |z|uri]; simpl; try (by intros [= <- <-]);
      destruct db as [| |z'|d]; simpl; try (by intros [= <- <-]).
    all: match goal with
         | |- context [mongo_servers ?w1 !! ?h] =>
             destruct (mongo_servers w1 !! h) as [dbs|] eqn:Hs; simpl;
               [|by intros [= <- <-]]
         end.
    all: match goal with
         | |- context [decide (NoDup ?l)] =>
             destruct (decide (NoDup l)); simpl; [done | by intros [= <- <-]]
         end.
  - intros client d Hc -> Hs. unfold_mongo. unfold_monad.
    destruct uri as [| |z|uri]; simpl in *; try done;
      injection Hc as <-; rewrite Hs; simpl; eauto.
  - intros Hd. unfold_mongo. unfold_monad.
    destruct uri as [| |z|uri]; simpl; eauto;
      destruct db as [| |z'|d]; simpl; eauto; by destruct (Hd d).
Qed.

Lemma mongo_init_failures_witness :
  (exists w,
      MongoDupeFilter.__init__ (PyStr "mongodb://db0") (PyStr "crawl") "job1"
        false w_nowhere = (Raise ServerSelectionTimeoutError, w))
  /\
  (exists e,
      MongoDupeFilter.__init__ (PyStr "mongodb://db0") PyNone "job1" false
        w_mongo = (Raise e, w_mongo))
  /\
  (mongo_servers
     (snd (MongoDupeFilter.__init__ (PyStr "mongodb://db0") (PyStr "crawl")
             "job1" false w_nowhere)) = mongo_servers w_nowhere /\
   redis_servers
     (snd (MongoDupeFilter.__init__ (PyStr "mongodb://db0") (PyStr "crawl")
             "job1" false w_nowhere)) = redis_servers w_nowhere /\
   stats
     (snd (MongoDupeFilter.__init__ (PyStr "mongodb://db0") (PyStr "crawl")
             "job1" false w_nowhere)) = stats w_nowhere).
Proof.
  split; [|split].
  - apply (proj1 (proj2 (mongo_init_failures (PyStr "mongodb://db0")
                           (PyStr "crawl") "job1" false w_nowhere))
             "mongodb://db0" "crawl"); reflexivity.
  - apply (proj2 (proj2 (mongo_init_failures (PyStr "mongodb://db0") PyNone
                           "job1" false w_mongo))).
    intros d. discriminate.
  - apply (proj1 (mongo_init_failures (PyStr "mongodb://db0") (PyStr "crawl")
                    "job1" false w_nowhere) ServerSelectionTimeoutError).
    reflexivity.
Defined.

(** ** Constructors from settings and from a spider *)

Lemma getbool_pure {S : Type} (int_of : string -> option Z)
    (settings : gmap string pyval) (name : string) (dflt : pyval) :
  exists r : result bool,
    forall s : S, Settings.getbool int_of settings name dflt s = (r, s).
Proof.
  unfold Settings.getbool.
  destruct (Settings.get settings name dflt) as [|b|z|str];
    try (eexists; intros; reflexivity).
  destruct (int_of str); [eexists; intros; reflexivity|].
  repeat case_bool_decide; eexists; intros; reflexivity.
Qed.

Lemma getint_pure {S : Type} (int_of : string -> option Z)
    (settings : gmap string pyval) (name : string) (dflt : pyval) :
  exists r : result Z,
    forall s : S, Settings.getint int_of settings name dflt s = (r, s).
Proof.
  unfold Settings.getint.
  destruct (Settings.get settings name dflt) as [|b|z|str];
    try (eexists; intros; reflexivity).
  destruct (int_of str); eexists; intros; reflexivity.
Qed.

Lemma py_mod_pure {S : Type} (pct : string -> string -> result string)
    (template : pyval) (name : string) :
  exists r : result string, forall s : S, py_mod pct template name s = (r, s).
Proof.
  unfold py_mod. destruct template; eexists; intros; reflexivity.
Qed.

Lemma mongo_init_clock (uri db : pyval) (coll : string) (dbg : bool)
    (t : Z) (w : world) :
  MongoDupeFilter.__init__ uri db coll dbg (set_clock t w)
  = (fst (MongoDupeFilter.__init__ uri db coll dbg w),
     set_clock t (snd (MongoDupeFilter.__init__ uri db coll dbg w))).
Proof.
  unfold_mongo. unfold_monad.
  destruct uri as [| |z|uri]; simpl; try reflexivity;
    destruct db as [| |z'|d]; simpl; try reflexivity.
  all: match goal with
       | |- context [mongo_servers ?w1 !! ?h] =>
           destruct (mongo_servers w1 !! h) as [dbs|]; simpl; [|reflexivity]
       end.
  all: match goal with
       | |- context [decide (NoDup ?l)] =>
           destruct (decide (NoDup l)); reflexivity
       end.
Qed.

(** The namespace of [from_spider] does not depend on the time of
    construction: at another clock value it returns the same instance (or
    raises the same error) and does the same to the stores.  The namespace
    of [from_settings] is the key template at the clock value of the
    construction. *)
Theorem mongo_from_spider_ignores_clock :
  forall (key_of : Z -> string) (default_key : string)
         (pct : string -> string -> result string)
         (int_of : string -> option Z) (name : string)
         (settings : gmap string pyval) (t : Z) (w : world),
    MongoDupeFilter.from_spider default_key pct int_of name settings (set_clock t w)
    = (fst (MongoDupeFilter.from_spider default_key pct int_of name settings w),
       set_clock t
         (snd (MongoDupeFilter.from_spider default_key pct int_of name settings w)))
    /\
    (forall self w',
        MongoDupeFilter.from_settings key_of int_of settings (set_clock t w)
        = (Ok self, w') ->
        MongoDupeFilter.collection self = key_of t).
Proof.
  intros key_of default_key pct int_of name settings t w. split.
  - unfold MongoDupeFilter.from_spider.
    destruct (py_mod_pure (S := world) pct
                (Settings.get settings "SCHEDULER_DUPEFILTER_KEY" (PyStr default_key))
                name) as (rk & Hk).
    destruct (getbool_pure (S := world) int_of settings "DUPEFILTER_DEBUG"
                (PyBool false)) as (rb & Hb).
    unfold bind. rewrite !Hk. destruct rk as [coll|e]; [|reflexivity].
    rewrite !Hb. destruct rb as [dbg|e]; [|reflexivity].
    apply mongo_init_clock.
  - intros self w'. unfold MongoDupeFilter.from_settings.
    destruct (getbool_pure (S := world) int_of settings "DUPEFILTER_DEBUG"
                (PyBool false)) as (rb & Hb).
    unfold bind. simpl. rewrite Hb. destruct rb as [dbg|e]; [|done].
    intros Hinit.
    apply (mongo_init_post _ _ _ _ _ _ _ Hinit).
Qed.

Lemma mongo_from_spider_witness :
  MongoDupeFilter.collection mongo_default = key_of_timestamp 1700000000.
Proof.
  apply (proj2 (mongo_from_spider_ignores_clock key_of_timestamp "%(spider)s:dupefilter"
                  (fun tpl nm => Ok (nm +:+ ":dupefilter")) int_never_asked
                  "spider" settings_no_uri 1700000000 w_localhost)
           mongo_default
           (snd (MongoDupeFilter.from_settings key_of_timestamp int_never_asked
                   settings_no_uri w_localhost))).
  reflexivity.
Defined.

(** [from_settings] and [from_spider] read the connection URI, the database
    name and the debug flag from the same settings: when both return an
    instance from the same world, the two instances differ in nothing but
    the collection name, which is the key template at the clock value for
    the first and the formatted spider template for the second. *)
Theorem mongo_constructors_differ_in_collection_only :
  forall (key_of : Z -> string) (default_key : string)
         (pct : string -> string -> result string)
         (int_of : string -> option Z) (name : string)
         (settings : gmap string pyval) (w wa wb : world)
         (a b : MongoDupeFilter.t),
    MongoDupeFilter.from_settings key_of int_of settings w = (Ok a, wa) ->
    MongoDupeFilter.from_spider default_key pct int_of name settings w = (Ok b, wb) ->
    MongoDupeFilter.mongo a = MongoDupeFilter.mongo b /\
    MongoDupeFilter.mongo_db a = MongoDupeFilter.mongo_db b /\
    MongoDupeFilter.debug a = MongoDupeFilter.debug b /\
    MongoDupeFilter.logdupes a = true /\ MongoDupeFilter.logdupes b = true /\
    MongoDupeFilter.collection a = key_of (clock w) /\
    exists template,
      Settings.get settings "SCHEDULER_DUPEFILTER_KEY" (PyStr default_key)
      = PyStr template /\
      pct template name = Ok (MongoDupeFilter.collection b).
Proof.
  intros key_of default_key pct int_of name settings w wa wb a b.
  unfold MongoDupeFilter.from_settings, MongoDupeFilter.from_spider.
  destruct (getbool_pure (S := world) int_of settings "DUPEFILTER_DEBUG"
              (PyBool false)) as (rb & Hb).
  unfold bind. simpl. rewrite Hb. destruct rb as [dbg|e]; [|done].
  intros Ha.
  unfold py_mod.
  destruct (Settings.get settings "SCHEDULER_DUPEFILTER_KEY" (PyStr default_key))
    as [| | |template]; try done.
  destruct (pct template name) as [coll|e] eqn:Hp; [|done].
  rewrite Hb. intros Hbi.
  destruct (mongo_init_post _ _ _ _ _ _ _ Ha)
    as ((Ha1 & Ha2 & Ha3 & Ha4 & Ha5) & _).
  destruct (mongo_init_post _ _ _ _ _ _ _ Hbi)
    as ((Hb1 & Hb2 & Hb3 & Hb4 & Hb5) & _).
  repeat split; try congruence.
  - destruct Ha5 as [[Hu ->]| Hu]; destruct Hb5 as [[Hu' ->]| Hu']; congruence.
  - exists template. split; [done|]. by rewrite Hb2.
Qed.

Lemma mongo_constructors_witness :
  MongoDupeFilter.mongo mongo_default
  = MongoDupeFilter.mongo
      (MongoDupeFilter.Build Mongo.HOST (PyStr "crawl") "spider:dupefilter" false true) /\
  MongoDupeFilter.mongo_db mongo_default
  = MongoDupeFilter.mongo_db
      (MongoDupeFilter.Build Mongo.HOST (PyStr "crawl") "spider:dupefilter" false true) /\
  MongoDupeFilter.debug mongo_default
  = MongoDupeFilter.debug
      (MongoDupeFilter.Build Mongo.HOST (PyStr "crawl") "spider:dupefilter" false true) /\
  MongoDupeFilter.logdupes mongo_default = true /\
  MongoDupeFilter.logdupes
    (MongoDupeFilter.Build Mongo.HOST (PyStr "crawl") "spider:dupefilter" false true)
  = true /\
  MongoDupeFilter.collection mongo_default = key_of_timestamp (clock w_localhost) /\
  exists template,
    Settings.get settings_no_uri "SCHEDULER_DUPEFILTER_KEY"
      (PyStr "%(spider)s:dupefilter") = PyStr template /\
    (fun (tpl nm : string) => Ok (nm +:+ ":dupefilter")) template "spider"
    = Ok (MongoDupeFilter.collection
            (MongoDupeFilter.Build Mongo.HOST (PyStr "crawl") "spider:dupefilter"
               false true)).
Proof.
  apply (mongo_constructors_differ_in_collection_only key_of_timestamp
           "%(spider)s:dupefilter" (fun tpl nm => Ok (nm +:+ ":dupefilter"))
           int_never_asked "spider" settings_no_uri w_localhost
           (snd (MongoDupeFilter.from_settings key_of_timestamp int_never_asked
                   settings_no_uri w_localhost))
           (snd (MongoDupeFilter.from_spider "%(spider)s:dupefilter"
                   (fun tpl nm => Ok (nm +:+ ":dupefilter")) int_never_asked
                   "spider" settings_no_uri w_localhost)));
    reflexivity.
Defined.

(** ** log and the stats counter over the lifetime of an instance *)

Section LogCounter.
Context {I A : Type} (logf : A -> M (I * world) unit).
Context (next : I -> I) (name : string).
Hypothesis call : forall x self w,
  exists w',
    logf x (self, w) = (Ok tt, (next self, w')) /\
    stats w' = stats_incremented name (stats w) /\
    redis_servers w' = redis_servers w /\
    mongo_servers w' = mongo_servers w.

Lemma log_counter (xs : list A) : forall self w,
  exists s',
    run_all logf xs (self, w) = (Ok (repeat tt (length xs)), s') /\
    default 0%Z (stats (snd s') !! name)
    = (default 0 (stats w !! name) + Z.of_nat (length xs))%Z /\
    (forall other, other <> name -> stats (snd s') !! other = stats w !! other) /\
    redis_servers (snd s') = redis_servers w /\
    mongo_servers (snd s') = mongo_servers w.
Proof.
  induction xs as [|x xs IH]; intros self w; simpl.
  - exists (self, w). simpl. split; [done|]. split; [lia|]. done.
  - destruct (call x self w) as (w1 & Hc & Hst & Hr & Hm).
    destruct (IH (next self) w1) as (s2 & Hrun & Hn & Ho & Hr2 & Hm2).
    exists s2. unfold bind, ret. rewrite Hc, Hrun. split; [done|].
    rewrite Hn, Hr2, Hm2, Hr, Hm, Hst. unfold stats_incremented.
    rewrite lookup_insert_eq. simpl. split; [lia|]. split; [|done].
    intros other Hne. rewrite (Ho other Hne), Hst.
    unfold stats_incremented. by rewrite lookup_insert_ne.
Qed.
End LogCounter.

Lemma redis_log_frame {request : Type} (req : request) (spider : string)
    (self : RedisDupeFilter.t) (w : world) :
  exists w',
    RedisDupeFilter.log req spider (self, w) = (Ok tt, (redis_after_log self, w')) /\
    stats w' = stats_incremented "dupefilter/filtered" (stats w) /\
    redis_servers w' = redis_servers w /\
    mongo_servers w' = mongo_servers w.
Proof.
  destruct self as [srv k dbg ld]. run_log.
  unfold redis_after_log, stats_incremented.
  destruct dbg, ld; simpl; eexists; (split; [reflexivity|]); done.
Qed.

Lemma bloom_log_frame {request : Type} (req : request) (spider : string)
    (self : RedisBloomFilter.t) (w : world) :
  exists w',
    RedisBloomFilter.log req spider (self, w) = (Ok tt, (bloom_after_log self, w')) /\
    stats w' = stats_incremented "bloomfilter/filtered" (stats w) /\
    redis_servers w' = redis_servers w /\
    mongo_servers w' = mongo_servers w.
Proof.
  destruct self as [srv k dbg ld b hn bf]. run_log.
  unfold bloom_after_log, stats_incremented.
  destruct dbg, ld; simpl; eexists; (split; [reflexivity|]); done.
Qed.

(** Any number of [log] calls on a [RedisDupeFilter] or [RedisBloomFilter]
    all return, raise the filter's counter by the number of calls (from 0
    when the counter did not exist), leave every other counter as it was
    and never touch a store: logging duplicates cannot change what
    [request_seen] answers. *)
Theorem log_counts_each_call_and_touches_no_store :
  forall (request : Type) (reqs : list request) (spider : string) (w : world),
    (forall self : RedisDupeFilter.t,
        exists s',
          run_all (fun r => RedisDupeFilter.log r spider) reqs (self, w)
          = (Ok (repeat tt (length reqs)), s') /\
          default 0%Z (stats (snd s') !! "dupefilter/filtered")
          = (default 0 (stats w !! "dupefilter/filtered")
             + Z.of_nat (length reqs))%Z /\
          (forall other, other <> "dupefilter/filtered" ->
                         stats (snd s') !! other = stats w !! other) /\
          redis_servers (snd s') = redis_servers w /\
          mongo_servers (snd s') = mongo_servers w)
    /\
    (forall self : RedisBloomFilter.t,
        exists s',
          run_all (fun r => RedisBloomFilter.log r spider) reqs (self, w)
          = (Ok (repeat tt (length reqs)), s') /\
          default 0%Z (stats (snd s') !! "bloomfilter/filtered")
          = (default 0 (stats w !! "bloomfilter/filtered")
             + Z.of_nat (length reqs))%Z /\
          (forall other, other <> "bloomfilter/filtered" ->
                         stats (snd s') !! other = stats w !! other) /\
          redis_servers (snd s') = redis_servers w /\
          mongo_servers (snd s') = mongo_servers w).
Proof.
  intros request reqs spider w. split; intros self.
  - apply (log_counter (fun r => RedisDupeFilter.log r spider) redis_after_log
             "dupefilter/filtered").
    intros x self0 w0. apply redis_log_frame.
  - apply (log_counter (fun r => RedisBloomFilter.log r spider) bloom_after_log
             "bloomfilter/filtered").
    intros x self0 w0. apply bloom_log_frame.
Qed.

(** ** RedisBloomFilter: clear and close at the store *)

(** [clear], and [close] through it, delete the key of the Bloom filter
    whatever it held: on a reachable server both succeed and reach the same
    state, in which the key does not exist and every bit of it reads 0; a
    second [clear] changes no store. *)
Theorem bloom_clear_deletes_the_bit_vector :
  forall (self : RedisBloomFilter.t) (reason : string) (w : world),
    is_Some (redis_servers w !! RedisBloomFilter.server self) ->
    exists w1 w2,
      RedisBloomFilter.clear (self, w) = (Ok tt, (self, w1)) /\
      RedisBloomFilter.close reason (self, w) = (Ok tt, (self, w1)) /\
      redis_value w1 (RedisBloomFilter.server self) (RedisBloomFilter.key self)
      = None /\
      (forall offset,
          fst (Redis.getbit (RedisBloomFilter.server self)
                 (RedisBloomFilter.key self) offset w1) = Ok 0%Z) /\
      RedisBloomFilter.clear (self, w1) = (Ok tt, (self, w2)) /\
      redis_servers w2 = redis_servers w1.
Proof.
  intros self reason w Hs.
  destruct (bloom_clear_fresh self w Hs) as (w1 & Hc & (db & Hs1 & Hk1)).
  exists w1. unfold RedisBloomFilter.close. rewrite Hc.
  unfold_redis. unfold_monad. rewrite Hs1. simpl. rewrite Hk1. simpl.
  eexists. repeat split.
Qed.

Lemma bloom_clear_witness :
  exists w1 w2,
    RedisBloomFilter.clear (bloom_job1, w_redis_str) = (Ok tt, (bloom_job1, w1)) /\
    RedisBloomFilter.close "finished" (bloom_job1, w_redis_str)
    = (Ok tt, (bloom_job1, w1)) /\
    redis_value w1 (RedisBloomFilter.server bloom_job1)
      (RedisBloomFilter.key bloom_job1) = None /\
    (forall offset,
        fst (Redis.getbit (RedisBloomFilter.server bloom_job1)
               (RedisBloomFilter.key bloom_job1) offset w1) = Ok 0%Z) /\
    RedisBloomFilter.clear (bloom_job1, w1) = (Ok tt, (bloom_job1, w2)) /\
    redis_servers w2 = redis_servers w1.
Proof.
  apply (bloom_clear_deletes_the_bit_vector bloom_job1 "finished" w_redis_str).
  eexists. reflexivity.
Defined.

(** ** RedisDupeFilter and RedisBloomFilter: construction *)





(** ** MongoDupeFilter: clear, and the lifetime of the index *)

Lemma mongo_clear_does_not_reset_witness :
  exists b s1,
    MongoDupeFilter.request_seen (fun r : string => r) "a"
      (mongo_job1, w_mongo_job1) = (Ok b, s1) /\
    MongoDupeFilter.clear s1 = (Raise TypeError, s1) /\
    fst (MongoDupeFilter.request_seen (fun r : string => r) "a" s1) = Ok true.
Proof.
  apply (mongo_clear_does_not_reset (fun r : string => r) mongo_job1 "a"
           w_mongo_job1).
  split; [by exists "crawl" | eexists; reflexivity].
Defined.

Lemma unique_index_only_from_init_witness :
  mongo_coll (snd (Mongo.drop_collection db_crawl "job1" (snd s_mongo_seen_a)))
    mongo_job1 = None
  /\
  exists w1 w2,
    MongoDupeFilter.request_seen (fun r : string => r) "a"
      (mongo_job1,
       snd (Mongo.drop_collection db_crawl "job1" (snd s_mongo_seen_a)))
    = (Ok false, (mongo_job1, w1)) /\
    mongo_coll w1 mongo_job1 = Some (Collection ["a"] false) /\
    Mongo.insert_one db_crawl "job1" "a" w1 = (Ok tt, w2) /\
    mongo_coll w2 mongo_job1 = Some (Collection ["a"; "a"] false).
Proof.
  assert (Hs : is_Some (mongo_servers (snd s_mongo_seen_a)
                          !! MongoDupeFilter.mongo mongo_job1)).
  { eexists. reflexivity. }
  exact (proj2 (proj2
    (unique_index_only_from_init string (fun r => r) mongo_job1 "a"
       (snd s_mongo_seen_a) "crawl" "finished" eq_refl Hs))).
Defined.

Lemma log_counts_witness :
  exists s',
    run_all (fun r : string => RedisDupeFilter.log r "spider") ["a"; "a"; "b"]
      (job1, w_redis) = (Ok (repeat tt (length ["a"; "a"; "b"])), s') /\
    default 0%Z (stats (snd s') !! "dupefilter/filtered")
    = (default 0 (stats w_redis !! "dupefilter/filtered")
       + Z.of_nat (length ["a"; "a"; "b"]))%Z /\
    (forall other, other <> "dupefilter/filtered" ->
                   stats (snd s') !! other = stats w_redis !! other) /\
    redis_servers (snd s') = redis_servers w_redis /\
    mongo_servers (snd s') = mongo_servers w_redis.
Proof.
  apply (proj1 (log_counts_each_call_and_touches_no_store string ["a"; "a"; "b"]
                  "spider" w_redis) job1).
Defined.
